(** * Layout placement engine of Page3.py: a shallow embedding

    The Python program works on floats; this development models every
    number as an exact rational ([Q]), so rounding is not modelled.
    Dictionaries with a fixed set of string keys become records, the
    furniture catalogue is a finite map, the module-level random generator
    is threaded explicitly, and raised exceptions are a constructor of the
    result type. *)

From Stdlib Require Import QArith Qminmax Lqa Lia Ascii.
From stdpp Require Import gmap strings list pretty.

Open Scope string_scope.
Open Scope list_scope.
Open Scope Q_scope.

(** ** Data model *)

(** [{"x": .., "y": ..}] *)
Record Position := mkPosition { x : Q; y : Q }.

(** [{"width": .., "depth": .., "height": ..}] *)
Record Dimensions := mkDimensions { width : Q; depth : Q; height : Q }.

(** The dictionary built for every candidate in [generate_layouts]. *)
Record Item := mkItem {
  type : string;
  position : Position;
  rotation : Q;
  dimensions : Dimensions
}.

(** ** Furniture catalogue *)

Definition catalog : gmap string Dimensions :=
  <["Bed" := mkDimensions 6.67 5 2.5]>
  (<["Sofa" := mkDimensions 6 3 3]>
  (<["TV Stand" := mkDimensions 5 1.5 2]>
  (<["Coffee Table" := mkDimensions 4 2 1.5]>
  (<["Nightstand" := mkDimensions 2 2 2]>
  (<["Dresser" := mkDimensions 4 2 4]>
  (<["Wardrobe" := mkDimensions 4 2 7]>
  (<["Armchair" := mkDimensions 3 3 3]>
  (<["Toilet" := mkDimensions 2.5 2 2.5]>
  (<["Sink" := mkDimensions 2 1.5 2.5]>
  (<["Shower" := mkDimensions 3 3 7]>
  (<["Bathtub" := mkDimensions 5 2.5 2]>
  (<["Door" := mkDimensions 3 0.1 7]>
  (<["Window" := mkDimensions 4 0.1 4]> ∅))))))))))))).

Definition default_dimensions : Dimensions := mkDimensions 2 2 2.

(** [dimensions.get(furniture_type, {"width": 2, "depth": 2, "height": 2})] *)
Definition get_furniture_dimensions (furniture_type : string) : Dimensions :=
  default default_dimensions (catalog !! furniture_type).

Definition catalog_names : list string :=
  ["Bed"; "Sofa"; "TV Stand"; "Coffee Table"; "Nightstand"; "Dresser";
   "Wardrobe"; "Armchair"; "Toilet"; "Sink"; "Shower"; "Bathtub"; "Door";
   "Window"].

(** ** Collision test *)

(** Python's [a <= b] and [a < b] on numbers. *)
Definition leb (a b : Q) : bool := Qle_bool a b.
Definition ltb (a b : Q) : bool := negb (Qle_bool b a).

Definition check_collision (item1 item2 : Item) : bool :=
  let x1 := x (position item1) in
  let y1 := y (position item1) in
  let w1 := width (dimensions item1) in
  let d1 := depth (dimensions item1) in
  let x2 := x (position item2) in
  let y2 := y (position item2) in
  let w2 := width (dimensions item2) in
  let d2 := depth (dimensions item2) in
  negb (leb (x1 + w1) x2 || leb (x2 + w2) x1
        || leb (y1 + d1) y2 || leb (y2 + d2) y1).

(** ** Exceptions, the predictive model and the random generator *)

Inductive exn :=
| IndexError
| TypeError
| InferenceError (msg : string).

Inductive result (A : Type) :=
| Ok (a : A)
| Raise (e : exn).
Arguments Ok {A} a.
Arguments Raise {A} e.

(** [model.predict]: one row of outputs per row of features, or an
    exception.  The module-level [model] is [None] when loading failed. *)
Definition Model := list (list Q) → result (list (list Q)).

(** [np.random.uniform(low, high)] is [low + (high - low) * random_sample()].
    [random_sample k] is the [k]-th value the generator yields and the
    generator's state is the number of values drawn so far. *)
Definition uniform (random_sample : nat → Q) (low high : Q) (drawn : nat)
  : Q * nat :=
  (low + (high - low) * random_sample drawn, S drawn).

(** The built-ins [min] and [max]: they keep their first argument unless a
    later one is strictly smaller (larger). *)
Definition py_min (a b : Q) : Q := if ltb b a then b else a.
Definition py_max (a b : Q) : Q := if ltb a b then b else a.
Definition py_min3 (a b c : Q) : Q := py_min (py_min a b) c.

(** ** Placement engine *)

Definition max_attempts : nat := 50.

Definition room_features (room_width room_length room_height : Q) : list Q :=
  [room_width / 20; room_length / 25; room_height / 10; 0; 0; 0; 0].

Definition warning (furniture : string) : string :=
  ("Warning: Could not place " ++ furniture ++
   " without overlap after 50 attempts.")%string.

(** The inner [for existing_item in layouts] loop with its [break]. *)
Fixpoint has_collision (new_item : Item) (layouts : list Item) : bool :=
  match layouts with
  | [] => false
  | existing_item :: rest =>
      if check_collision new_item existing_item then true
      else has_collision new_item rest
  end.

(** What the engine carries from one step to the next: the layout built so
    far, the generator's state and the lines printed. *)
Record State := mkState {
  layouts : list Item;
  drawn : nat;
  printed : list string
}.

(** The local variables of one run of the [while] loop when it exits. *)
Record Placement := mkPlacement {
  state : State;
  attempts : nat;
  placed : bool
}.

Section engine.
Variable random_sample : nat → Q.
Variables room_width room_length : Q.
Variable predictions : option (list (list Q)).

(** The candidate position of one attempt: the clamped prediction on
    attempt 0 when there are predictions, two uniform draws otherwise. *)
Definition candidate (i : nat) (furniture_dims : Dimensions)
    (attempts : nat) (drawn : nat) : result (Position * nat) :=
  match attempts, predictions with
  | O, Some predictions =>
      match predictions !! i with
      | None => Raise IndexError
      | Some row =>
          match row !! 0%nat, row !! 1%nat with
          | Some p0, Some p1 =>
              let pos_x :=
                py_max 0 (py_min (p0 * room_width)
                                 (room_width - width furniture_dims)) in
              let pos_y :=
                py_max 0 (py_min (p1 * room_length)
                                 (room_length - depth furniture_dims)) in
              Ok (mkPosition pos_x pos_y, drawn)
          | _, _ => Raise IndexError
          end
      end
  | _, _ =>
      let '(pos_x, drawn) :=
        uniform random_sample 0 (room_width - width furniture_dims) drawn in
      let '(pos_y, drawn) :=
        uniform random_sample 0 (room_length - depth furniture_dims) drawn in
      Ok (mkPosition pos_x pos_y, drawn)
  end.

(** [while attempts < max_attempts and not placed]: [budget] is
    [max_attempts - attempts], so the loop condition fails at [0]. *)
Fixpoint place_loop (budget : nat) (i : nat) (furniture : string)
    (furniture_dims : Dimensions) (attempts : nat) (st : State)
    : result Placement :=
  match budget with
  | O => Ok (mkPlacement st attempts false)
  | S budget =>
      match candidate i furniture_dims attempts (drawn st) with
      | Raise e => Raise e
      | Ok (pos, drawn') =>
          let new_item := mkItem furniture pos 0 furniture_dims in
          if has_collision new_item (layouts st) then
            place_loop budget i furniture furniture_dims (S attempts)
              (mkState (layouts st) drawn' (printed st))
          else
            Ok (mkPlacement
                  (mkState (layouts st ++ [new_item]) drawn' (printed st))
                  attempts true)
      end
  end.

(** The body of [for i, furniture in enumerate(selected_furniture)]. *)
Definition place_furniture (i : nat) (furniture : string) (st : State)
    : result Placement :=
  let furniture_dims := get_furniture_dimensions furniture in
  match place_loop max_attempts i furniture furniture_dims 0 st with
  | Raise e => Raise e
  | Ok p =>
      if placed p then Ok p
      else
        Ok (mkPlacement
              (mkState (layouts (state p)) (drawn (state p))
                       (printed (state p) ++ [warning furniture]))
              (attempts p) false)
  end.

Fixpoint place_all (i : nat) (selected_furniture : list string) (st : State)
    : result State :=
  match selected_furniture with
  | [] => Ok st
  | furniture :: rest =>
      match place_furniture i furniture st with
      | Raise e => Raise e
      | Ok p => place_all (S i) rest (state p)
      end
  end.

(** How one run of the [while] loop can end: with the item appended at a
    candidate that collides with nothing placed before, or with the
    budget used up and the layout untouched. *)
Inductive loop_exit (i : nat) (furniture : string) (dims : Dimensions)
    (first budget : nat) (st : State) (p : Placement) : Prop :=
| exit_placed (pos : Position) (d d' : nat) :
    placed p = true →
    (first <= attempts p < first + budget)%nat →
    candidate i dims (attempts p) d = Ok (pos, d') →
    has_collision (mkItem furniture pos 0 dims) (layouts st) = false →
    layouts (state p) = layouts st ++ [mkItem furniture pos 0 dims] →
    printed (state p) = printed st →
    loop_exit i furniture dims first budget st p
| exit_exhausted :
    placed p = false →
    attempts p = (first + budget)%nat →
    layouts (state p) = layouts st →
    printed (state p) = printed st →
    loop_exit i furniture dims first budget st p.

(** The loop raises only through its candidate, and the candidate raises
    only when attempt 0 reads a prediction that is not there. *)
Definition hint_available (i : nat) : Prop :=
  match predictions with
  | None => True
  | Some rows =>
      ∃ (row : list Q) (p0 p1 : Q),
        rows !! i = Some row ∧ row !! 0%nat = Some p0 ∧
        row !! 1%nat = Some p1
  end.
End engine.

(** [generate_layouts]: the feature rows, the optional inference call and
    the placement loop.  The [except] clause prints and re-raises, so an
    exception of the body is the exception of the call. *)
Definition generate_layouts (model : option Model) (random_sample : nat → Q)
    (room_width room_length room_height : Q)
    (selected_furniture : list string) (drawn : nat) : result State :=
  let X :=
    map (λ _, room_features room_width room_length room_height)
        selected_furniture in
  let predictions :=
    match model with
    | Some model =>
        match model X with
        | Ok rows => Ok (Some rows)
        | Raise e => Raise e
        end
    | None => Ok None
    end in
  match predictions with
  | Raise e => Raise e
  | Ok predictions =>
      place_all random_sample room_width room_length predictions 0
        selected_furniture (mkState [] drawn [])
  end.

(** ** Meshes and the 3D scale-and-position step *)

Definition Vertex : Type := Q * Q * Q.
Definition Face : Type := nat * nat * nat.

(** A trimesh mesh: vertex positions and triangles of vertex indices. *)
Record Mesh := mkMesh {
  vertices : list Vertex;
  faces : list Face
}.

Definition vx (v : Vertex) : Q := v.1.1.
Definition vy (v : Vertex) : Q := v.1.2.
Definition vz (v : Vertex) : Q := v.2.

(** trimesh takes the bounds over the vertices that some face refers to. *)
Definition referenced_vertices (mesh : Mesh) : list nat :=
  flat_map (λ f : Face, [f.1.1; f.1.2; f.2]) (faces mesh).

Definition in_mesh (mesh : Mesh) : list Vertex :=
  omap (λ i, vertices mesh !! i) (referenced_vertices mesh).

Definition minimum (a : Q) (l : list Q) : Q := fold_left Qmin l a.
Definition maximum (a : Q) (l : list Q) : Q := fold_left Qmax l a.

(** [mesh.bounds]: the minimum and the maximum corner, [None] when no
    vertex is referenced. *)
Definition bounds (mesh : Mesh) : option (Vertex * Vertex) :=
  match in_mesh mesh with
  | [] => None
  | v :: l =>
      Some ((minimum (vx v) (vx <$> l), minimum (vy v) (vy <$> l),
             minimum (vz v) (vz <$> l)),
            (maximum (vx v) (vx <$> l), maximum (vy v) (vy <$> l),
             maximum (vz v) (vz <$> l)))
  end.

(** [mesh.extents]: maximum minus minimum on every axis. *)
Definition extents (mesh : Mesh) : option Vertex :=
  match bounds mesh with
  | None => None
  | Some (lo, hi) => Some (vx hi - vx lo, vy hi - vy lo, vz hi - vz lo)
  end.

(** Indexing the extents of a mesh without referenced vertices indexes
    [None], a [TypeError].  Division by a zero extent, which numpy answers
    with an infinity, is outside this model. *)
Definition calculate_scale_factor (mesh : Mesh) (target_dims : Dimensions)
    : result Q :=
  match extents mesh with
  | None => Raise TypeError
  | Some current_dims =>
      let width_scale := width target_dims / vx current_dims in
      let depth_scale := depth target_dims / vy current_dims in
      let height_scale := height target_dims / vz current_dims in
      Ok (py_min3 width_scale depth_scale height_scale)
  end.

(** The two homogeneous matrices the program builds. *)
Inductive Transform :=
| scale_matrix (factor : Q)
| translation_matrix (t : Vertex).

Definition transform_point (matrix : Transform) (v : Vertex) : Vertex :=
  match matrix with
  | scale_matrix factor => (factor * vx v, factor * vy v, factor * vz v)
  | translation_matrix t => (vx v + vx t, vy v + vy t, vz v + vz t)
  end.

Definition fliplr (f : Face) : Face := (f.2, f.1.2, f.1.1).

(** [Trimesh.apply_transform] on a mesh value: every vertex is mapped, and a
    matrix of negative determinant reverses the winding of the faces. *)
Definition transformed (matrix : Transform) (mesh : Mesh) : Mesh :=
  mkMesh (transform_point matrix <$> vertices mesh)
         (match matrix with
          | scale_matrix factor =>
              if ltb factor 0 then fliplr <$> faces mesh else faces mesh
          | translation_matrix _ => faces mesh
          end).

(** Mesh objects live in a store; a Python variable holds a location.
    A new object gets the next free location. *)
Abbreviation loc := nat.
Abbreviation heap := (list Mesh).

Definition empty_mesh : Mesh := mkMesh [] [].

(** Reading through a reference.  The program only holds references to
    objects it has allocated, so the default is never read from there. *)
Definition deref (h : heap) (l : loc) : Mesh := default empty_mesh (h !! l).

Definition alloc (mesh : Mesh) (h : heap) : loc * heap :=
  (List.length h, (h ++ [mesh])%list).

(** [mesh.copy()]: a new object with the same vertices and faces. *)
Definition copy (mesh : loc) (h : heap) : loc * heap :=
  alloc (deref h mesh) h.

(** [mesh.apply_transform(matrix)] and [mesh.apply_translation(t)] update
    the object in place. *)
Definition apply_transform (matrix : Transform) (mesh : loc) (h : heap)
    : heap :=
  alter (transformed matrix) mesh h.

Definition apply_translation (t : Vertex) (mesh : loc) (h : heap) : heap :=
  apply_transform (translation_matrix t) mesh h.

(** Lines 449-458 of [visualize_layouts_3d]: scale a copy of [mesh] and
    move it to the item's position. *)
Definition scale_and_position (mesh : loc) (furniture : Item) (h : heap)
    : result (loc * heap) :=
  match calculate_scale_factor (deref h mesh) (dimensions furniture) with
  | Raise e => Raise e
  | Ok scale_factor =>
      let '(scaled_mesh, h) := copy mesh h in
      let h := apply_transform (scale_matrix scale_factor) scaled_mesh h in
      let h :=
        apply_translation
          (x (position furniture), y (position furniture), 0)
          scaled_mesh h in
      Ok (scaled_mesh, h)
  end.

(** What is handed to the plotting surface for one piece of furniture. *)
Inductive Drawable :=
| plot_trisurf (vertices : list Vertex) (triangles : list Face)
| bar3d (x y z dx dy dz : Q).

(** The furniture loop of [visualize_layouts_3d].  [load_3d_model] stands
    for [load_3d_model(get_safe_model_path(furniture_type))], which reads
    the asset files and returns a new mesh object or [None].  The room
    outline, the labels and the diagnostic printing of [verify_scaling]
    are not modelled. *)
Fixpoint visualize_layouts_3d (load_3d_model : string → option Mesh)
    (furniture_layouts : list Item) (h : heap)
    : result (list Drawable * heap) :=
  match furniture_layouts with
  | [] => Ok ([], h)
  | furniture :: rest =>
      let position := position furniture in
      let dimensions := dimensions furniture in
      let drawn_item :=
        match load_3d_model (type furniture) with
        | Some loaded =>
            let '(mesh, h) := alloc loaded h in
            match scale_and_position mesh furniture h with
            | Raise e => Raise e
            | Ok (scaled_mesh, h) =>
                Ok (plot_trisurf (vertices (deref h scaled_mesh))
                                 (faces (deref h scaled_mesh)), h)
            end
        | None =>
            Ok (bar3d (x position) (y position) 0 (width dimensions)
                      (depth dimensions) (height dimensions), h)
        end in
      match drawn_item with
      | Raise e => Raise e
      | Ok (d, h) =>
          match visualize_layouts_3d load_3d_model rest h with
          | Raise e => Raise e
          | Ok (ds, h) => Ok (d :: ds, h)
          end
      end
  end.

(** ** The 2D view and the asset files *)

Definition ASSET_MAPPING : gmap string string :=
  <["Bed" := "assets/images/bed.png"]>
  (<["Sofa" := "assets/images/sofa.png"]>
  (<["TV Stand" := "assets/images/tv_stand.png"]>
  (<["Coffee Table" := "assets/images/coffeetable.png"]>
  (<["Nightstand" := "assets/images/nightstand.png"]>
  (<["Dresser" := "assets/images/dresser.png"]>
  (<["Wardrobe" := "assets/images/wardrobe.png"]>
  (<["Armchair" := "assets/images/armchair.png"]>
  (<["Toilet" := "assets/images/toilet.png"]>
  (<["Sink" := "assets/images/sink.png"]>
  (<["Shower" := "assets/images/shower.png"]>
  (<["Bathtub" := "assets/images/bathtub.png"]>
  (<["Door" := "assets/images/door.png"]>
  (<["Window" := "assets/images/window.png"]> ∅))))))))))))).

(** [int(q)] on a number: truncation towards zero. *)
Definition py_int (q : Q) : Z := Z.quot (Qnum q) (Zpos (Qden q)).

(** What [visualize_layouts] hands to the axes, in the order of the calls. *)
Inductive Artist :=
| Rectangle (xy : Q * Q) (w h : Q) (fill : bool) (color : string)
    (alpha : option Q)
| imshow (extent : Q * Q * Q * Q) (size : Z * Z)
| ax_text (tx ty : Q) (s : string).

(** [str.lower()] and [str.replace(" ", "_")] on strings of ASCII
    characters. *)
Definition lower_char (c : Ascii.ascii) : Ascii.ascii :=
  let n := Ascii.nat_of_ascii c in
  if (65 <=? n)%nat && (n <=? 90)%nat then Ascii.ascii_of_nat (n + 32)
  else c.

Fixpoint str_lower (s : string) : string :=
  match s with
  | EmptyString => EmptyString
  | String c s => String (lower_char c) (str_lower s)
  end.

Fixpoint str_replace (old new : Ascii.ascii) (s : string) : string :=
  match s with
  | EmptyString => EmptyString
  | String c s => String (if Ascii.eqb c old then new else c)
                         (str_replace old new s)
  end.

Definition supported_formats : list string := [".dae"; ".stl"; ".obj"].

(** The file names [verify_3d_models] checks. *)
Definition required_models : list string :=
  ["bed"; "sofa"; "tv_stand"; "coffee_table"; "nightstand"; "dresser";
   "wardrobe"; "armchair"; "toilet"; "sink"; "shower"; "bathtub"; "door";
   "window"].

Section files.
Variable script_dir : string.
(** [os.path.join] of two components; more components are joined from the
    left. *)
Variable os_path_join : string → string → string.
Variable os_path_exists : string → bool.
(** [Image.open(path).resize((w, h))]: the decoded picture is not
    modelled, only whether PIL raises. *)
Variable Image_open_resize : string → Z → Z → result unit.

(** The shape and the label of one piece of furniture in the 2D view. *)
Definition draw_furniture (furniture : Item) : result (list Artist) :=
  let position := position furniture in
  let dimensions := dimensions furniture in
  let furniture_type := type furniture in
  let shape :=
    if String.eqb furniture_type "Door" || String.eqb furniture_type "Window"
    then
      let color := if String.eqb furniture_type "Door" then "red" else "blue" in
      Ok [Rectangle (x position, y position) (width dimensions)
            (depth dimensions) true color (Some 0.7)]
    else
      match ASSET_MAPPING !! furniture_type with
      | Some asset =>
          let img_path := os_path_join script_dir asset in
          if os_path_exists img_path then
            let scale_factor := 50 in
            let scaled_width := py_int (width dimensions * scale_factor) in
            let scaled_depth := py_int (depth dimensions * scale_factor) in
            match Image_open_resize img_path scaled_width scaled_depth with
            | Raise e => Raise e
            | Ok _ =>
                Ok [imshow (x position, x position + width dimensions,
                            y position, y position + depth dimensions)
                           (scaled_width, scaled_depth)]
            end
          else
            Ok [Rectangle (x position, y position) (width dimensions)
                  (depth dimensions) true "gray" (Some 0.5)]
      | None => Ok []
      end in
  match shape with
  | Raise e => Raise e
  | Ok shape =>
      Ok (shape ++
          [ax_text (x position + width dimensions / 2)
                   (y position + depth dimensions / 2) furniture_type])
  end.

Fixpoint draw_all (furniture_layouts : list Item) : result (list Artist) :=
  match furniture_layouts with
  | [] => Ok []
  | furniture :: rest =>
      match draw_furniture furniture with
      | Raise e => Raise e
      | Ok arts =>
          match draw_all rest with
          | Raise e => Raise e
          | Ok more => Ok (arts ++ more)
          end
      end
  end.

(** [visualize_layouts]: the outline of the room, then every piece of
    furniture.  Axis limits, grid and title are not modelled; the [except]
    clause re-raises. *)
Definition visualize_layouts (room_width room_length : Q)
    (furniture_layouts : list Item) : result (list Artist) :=
  match draw_all furniture_layouts with
  | Raise e => Raise e
  | Ok arts =>
      Ok (Rectangle (0, 0) room_width room_length false "black" None :: arts)
  end.

(** The [for fmt in supported_formats] loop of [get_safe_model_path]. *)
Fixpoint first_existing (base_path : string) (formats : list string)
    : option string :=
  match formats with
  | [] => None
  | fmt :: rest =>
      let path := (base_path ++ fmt)%string in
      if os_path_exists path then Some path
      else first_existing base_path rest
  end.

Definition model_name (furniture_type : string) : string :=
  str_replace " "%char "_"%char (str_lower furniture_type).

Definition get_safe_model_path (furniture_type : string) : option string :=
  let base_path :=
    os_path_join
      (os_path_join (os_path_join script_dir "assets") "3d_models")
      (model_name furniture_type) in
  first_existing base_path supported_formats.
End files.

(** ** Reading a Collada file *)

(** A primitive of a Collada geometry: its vertex array and its triangles,
    as indices into that array. *)
Record Primitive := mkPrimitive {
  vertex : list Vertex;
  vertex_index : list Face
}.

(** The three accumulators of the loop in [load_3d_model]. *)
Record Arrays := mkArrays {
  all_vertices : list Vertex;
  all_faces : list Face;
  vertex_offset : nat
}.

(** [faces + vertex_offset] on one row of the index array. *)
Definition adjusted (vertex_offset : nat) (f : Face) : Face :=
  (f.1.1 + vertex_offset, f.1.2 + vertex_offset, f.2 + vertex_offset)%nat.

Definition add_primitive (acc : Arrays) (primitive : Primitive) : Arrays :=
  mkArrays
    (all_vertices acc ++ vertex primitive)
    (all_faces acc ++ (adjusted (vertex_offset acc) <$> vertex_index primitive))
    (vertex_offset acc + List.length (vertex primitive)).

(** Lines 146-162 of [load_3d_model]: [geometries] lists, for every geometry
    of the file, its primitives. *)
Definition dae_arrays (geometries : list (list Primitive)) : Arrays :=
  fold_left (λ acc geometry, fold_left add_primitive geometry acc)
    geometries (mkArrays [] [] 0).

(** ** The list of selected furniture of [RoomLayoutApp] *)

(** [f"{furniture_type} #{i + 1}"] *)
Definition entry (furniture_type : string) (i : nat) : string :=
  (furniture_type ++ " #" ++ pretty (i + 1)%nat)%string.

(** [add_furniture_with_quantity]: [selection] is the selected line of the
    furniture list box, if any, and [quantity] the integer in the spin box,
    if it is one.  Returns the list of selected furniture and the warning
    shown, if any. *)
Definition add_furniture_with_quantity (selection : option string)
    (quantity : option Z) (selected_furniture_list : list string)
    : list string * option string :=
  match selection with
  | None => (selected_furniture_list, Some "Please select a furniture item")
  | Some furniture_type =>
      match quantity with
      | None => (selected_furniture_list, Some "Please enter a valid quantity")
      | Some quantity =>
          (selected_furniture_list ++
             (entry furniture_type <$> seq 0 (Z.to_nat quantity)), None)
      end
  end.

(** [s.split(sep)[0]] for a separator that is not empty: what comes before
    the first occurrence of the separator. *)
Fixpoint split_head (sep s : string) : string :=
  if String.prefix sep s then EmptyString
  else match s with
       | EmptyString => EmptyString
       | String c s => String c (split_head sep s)
       end.

(** The list comprehension of [generate_layout]. *)
Definition selected_furniture_of (selected_furniture_list : list string)
    : list string :=
  split_head " #" <$> selected_furniture_list.

(** [sep] occurs somewhere in [s]. *)
Fixpoint occurs (sep s : string) : bool :=
  String.prefix sep s ||
  match s with
  | EmptyString => false
  | String _ s => occurs sep s
  end.

(** ** Room dimensions and families (JessyPage1and2.py) *)

Definition METERS_TO_INCHES : Q := 39.3701.

(** [controller.room_dimensions], in metres. *)
Module Controller.
Record room_dimensions := mk { length : Q; width : Q; height : Q }.
End Controller.

(** The outline of the room in [FamiliesPage.update_preview], in inches;
    the boxes of the families are not part of this definition. *)
Definition room_outline (controller : Controller.room_dimensions)
    : option Artist :=
  let room_length := Controller.length controller * METERS_TO_INCHES in
  let room_width := Controller.width controller * METERS_TO_INCHES in
  if ltb 0 room_length && ltb 0 room_width then
    Some (Rectangle (0, 0) room_length room_width false "blue" None)
  else None.

(** The axis limits of the same preview: [(xlim, ylim)]. *)
Definition preview_limits (controller : Controller.room_dimensions)
    : (Q * Q) * (Q * Q) :=
  let room_length := Controller.length controller * METERS_TO_INCHES in
  let room_width := Controller.width controller * METERS_TO_INCHES in
  let padding :=
    if ltb 0 room_length && ltb 0 room_width
    then py_max room_length room_width * 0.1 else 1 in
  ((- padding, if ltb 0 room_length then room_length + padding else padding),
   (- padding, if ltb 0 room_width then room_width + padding else padding)).

(** Python floats as far as [get_family_dimensions] needs them: exact
    rationals, the two infinities and NaN.  Rounding, overflow and signed
    zeros are not modelled. *)
Inductive pyfloat :=
| nan
| neg_inf
| finite (q : Q)
| pos_inf.

Definition flt (a b : pyfloat) : bool :=
  match a, b with
  | nan, _ => false
  | _, nan => false
  | neg_inf, neg_inf => false
  | neg_inf, _ => true
  | finite _, neg_inf => false
  | finite p, finite q => ltb p q
  | finite _, pos_inf => true
  | pos_inf, _ => false
  end.

Definition fmin (a b : pyfloat) : pyfloat := if flt b a then b else a.
Definition fmax (a b : pyfloat) : pyfloat := if flt a b then b else a.

Definition fsub (a b : pyfloat) : pyfloat :=
  match a, b with
  | nan, _ => nan
  | _, nan => nan
  | pos_inf, pos_inf => nan
  | neg_inf, neg_inf => nan
  | pos_inf, _ => pos_inf
  | neg_inf, _ => neg_inf
  | finite _, pos_inf => neg_inf
  | finite _, neg_inf => pos_inf
  | finite p, finite q => finite (p - q)
  end.

(** An infinity of the given sign times a rational. *)
Definition inf_times (positive : bool) (q : Q) : pyfloat :=
  match q ?= 0 with
  | Eq => nan
  | Gt => if positive then pos_inf else neg_inf
  | Lt => if positive then neg_inf else pos_inf
  end.

Definition fmul (a b : pyfloat) : pyfloat :=
  match a, b with
  | nan, _ => nan
  | _, nan => nan
  | finite p, finite q => finite (p * q)
  | pos_inf, finite q => inf_times true q
  | neg_inf, finite q => inf_times false q
  | finite p, pos_inf => inf_times true p
  | finite p, neg_inf => inf_times false p
  | pos_inf, pos_inf => pos_inf
  | neg_inf, neg_inf => pos_inf
  | pos_inf, neg_inf => neg_inf
  | neg_inf, pos_inf => neg_inf
  end.

(** [str.isspace] on ASCII characters and [str.split()] without a
    separator: the maximal runs of characters that are not white space. *)
Definition isspace (c : ascii) : bool :=
  let n := nat_of_ascii c in
  ((9 <=? n)%nat && (n <=? 13)%nat) || ((28 <=? n)%nat && (n <=? 32)%nat).

Fixpoint split_words (word s : string) : list string :=
  match s with
  | EmptyString =>
      match word with EmptyString => [] | _ => [word] end
  | String c s =>
      if isspace c then
        match word with
        | EmptyString => split_words EmptyString s
        | _ => word :: split_words EmptyString s
        end
      else split_words (word ++ String c EmptyString)%string s
  end.

Definition str_split (s : string) : list string := split_words EmptyString s.

(** [min_x, max_x, min_y, max_y] *)
Definition Extremes : Type := pyfloat * pyfloat * pyfloat * pyfloat.

Section families_page.
Variable os_path_join : string → string → string.
Variable os_path_exists : string → bool.
(** The lines of a text file, or [None] when opening or reading raises. *)
Variable read_lines : string → option (list string).
(** [float(s)]; [None] stands for the [ValueError]. *)
Variable float : string → option pyfloat.

(** [_, x, y, _ = map(float, line.split())]: every word is converted, the
    first one too, and there must be exactly four.  [None] stands for the
    [ValueError] of a conversion or of the unpacking. *)
Definition vertex_xy (line : string) : option (pyfloat * pyfloat) :=
  match str_split line with
  | [w0; w1; w2; w3] =>
      match float w0 with
      | None => None
      | Some _ =>
          match float w1 with
          | None => None
          | Some x =>
              match float w2 with
              | None => None
              | Some y =>
                  match float w3 with
                  | None => None
                  | Some _ => Some (x, y)
                  end
              end
          end
      end
  | _ => None
  end.

(** The [for line in f] loop; [None] when a line raises. *)
Fixpoint scan_lines (lines : list string) (acc : Extremes) : option Extremes :=
  match lines with
  | [] => Some acc
  | line :: rest =>
      if String.prefix "v " line then
        match vertex_xy line with
        | None => None
        | Some (x, y) =>
            let '(min_x, max_x, min_y, max_y) := acc in
            scan_lines rest (fmin min_x x, fmax max_x x, fmin min_y y,
                             fmax max_y y)
        end
      else scan_lines rest acc
  end.

(** [FamiliesPage.get_family_dimensions]: every exception ends in the
    default of 20 by 20 inches. *)
Definition get_family_dimensions (families_folder family_name : string)
    : pyfloat * pyfloat :=
  let obj_path := os_path_join families_folder family_name in
  if negb (os_path_exists obj_path) then (finite 20, finite 20)
  else
    match read_lines obj_path with
    | None => (finite 20, finite 20)
    | Some lines =>
        match scan_lines lines (pos_inf, neg_inf, pos_inf, neg_inf) with
        | None => (finite 20, finite 20)
        | Some (min_x, max_x, min_y, max_y) =>
            let width := fmul (fsub max_x min_x) (finite METERS_TO_INCHES) in
            let height := fmul (fsub max_y min_y) (finite METERS_TO_INCHES) in
            (width, height)
        end
    end.
End families_page.

(** ** Predicates of the specification *)

(** No two different entries of a layout collide. *)
Definition non_overlapping (l : list Item) : Prop :=
  ∀ (i j : nat) (a b : Item),
    i ≠ j → l !! i = Some a → l !! j = Some b → check_collision a b = false.

(** The item is no wider and no deeper than the room. *)
Definition fits_room (room_width room_length : Q) (item : Item) : Prop :=
  width (dimensions item) <= room_width ∧
  depth (dimensions item) <= room_length.

(** [random_sample()] yields values of the half-open unit interval. *)
Definition unit_samples (random_sample : nat → Q) : Prop :=
  ∀ k, 0 <= random_sample k ∧ random_sample k < 1.

(** Equality of points up to the representation of the rationals. *)
Definition veq (u v : Vertex) : Prop :=
  vx u == vx v ∧ vy u == vy v ∧ vz u == vz v.

(** The matrices that keep the order on every axis. *)
Definition order_preserving (matrix : Transform) : Prop :=
  match matrix with
  | scale_matrix factor => 0 <= factor
  | translation_matrix _ => True
  end.

(** The box that stands for an item without a mesh, and the label of an
    item in the 2D view. *)
Definition box_of (item : Item) : Drawable :=
  bar3d (x (position item)) (y (position item)) 0
        (width (dimensions item)) (depth (dimensions item))
        (height (dimensions item)).

Definition label_of (item : Item) : Artist :=
  ax_text (x (position item) + width (dimensions item) / 2)
          (y (position item) + depth (dimensions item) / 2) (type item).

Definition is_text (a : Artist) : bool :=
  match a with ax_text _ _ _ => true | _ => false end.

(** The rectangle [(x, y, width, depth)] that a shape of the 2D view
    covers. *)
Definition covers (a : Artist) (item : Item) : Prop :=
  match a with
  | Rectangle (rx, ry) w h _ _ _ =>
      rx = x (position item) ∧ ry = y (position item) ∧
      w = width (dimensions item) ∧ h = depth (dimensions item)
  | imshow (x0, x1, y0, y1) _ =>
      x0 = x (position item) ∧ y0 = y (position item) ∧
      x1 - x0 == width (dimensions item) ∧
      y1 - y0 == depth (dimensions item)
  | ax_text _ _ _ => False
  end.

(** Every index of every face is below [n]. *)
Definition faces_in_range (n : nat) (faces : list Face) : Prop :=
  Forall (λ f : Face, (f.1.1 < n ∧ f.1.2 < n ∧ f.2 < n)%nat) faces.

Definition well_indexed (primitive : Primitive) : Prop :=
  faces_in_range (List.length (vertex primitive)) (vertex_index primitive).

(** The corner of an item lies in the placement envelope
    [0, room_width - width] x [0, room_length - depth]; the two upper
    bounds are the differences that the program computes. *)
Definition inside_envelope (room_width room_length : Q) (item : Item) : Prop :=
  0 <= x (position item) ∧
  x (position item) <= room_width - width (dimensions item) ∧
  0 <= y (position item) ∧
  y (position item) <= room_length - depth (dimensions item).

Section attempts.
Variable random_sample : nat → Q.
Variables room_width room_length : Q.
Variable predictions : option (list (list Q)).
Variable i : nat.
Variable furniture : string.
Variable furniture_dims : Dimensions.

(** The state of the generator after [k] attempts in a row, the first of
    them being attempt number [first] and starting in state [d]. *)
Fixpoint drawn_after (first d k : nat) : nat :=
  match k with
  | O => d
  | S k =>
      match candidate random_sample room_width room_length predictions i
              furniture_dims first d with
      | Ok (_, d') => drawn_after (S first) d' k
      | Raise _ => d
      end
  end.

(** The item that attempt number [k + first] tries, and the state of the
    generator after it, when attempt number [first] starts in state [d]. *)
Definition attempt (first d k : nat) : result (Item * nat) :=
  match candidate random_sample room_width room_length predictions i
          furniture_dims (k + first) (drawn_after first d k) with
  | Ok (pos, d') => Ok (mkItem furniture pos 0 furniture_dims, d')
  | Raise e => Raise e
  end.
End attempts.

(** ** Randomized search, as the specification describes it

    Written from the specification (4.3), for comparison with the code
    when there is no model: every attempt draws [x] uniformly from
    [0, room_width - width] and [y] from [0, room_length - depth]; the item
    is committed at the first of at most [budget] candidates that overlaps
    no committed item, and is reported otherwise; the next item follows. *)

Definition random_candidate (random_sample : nat → Q)
    (room_width room_length : Q) (furniture : string) (dims : Dimensions)
    (d : nat) : Item :=
  mkItem furniture
    (mkPosition (uniform random_sample 0 (room_width - width dims) d).1
                (uniform random_sample 0 (room_length - depth dims) (S d)).1)
    0 dims.

Fixpoint random_attempts (random_sample : nat → Q)
    (room_width room_length : Q) (furniture : string) (dims : Dimensions)
    (committed : list Item) (budget d : nat) : option Item * nat :=
  match budget with
  | O => (None, d)
  | S budget =>
      let item :=
        random_candidate random_sample room_width room_length furniture dims d
      in
      if has_collision item committed then
        random_attempts random_sample room_width room_length furniture dims
          committed budget (S (S d))
      else (Some item, S (S d))
  end.

Fixpoint randomized_search (random_sample : nat → Q)
    (room_width room_length : Q) (selected_furniture : list string)
    (st : State) : State :=
  match selected_furniture with
  | [] => st
  | furniture :: rest =>
      match random_attempts random_sample room_width room_length furniture
              (get_furniture_dimensions furniture) (layouts st) max_attempts
              (drawn st) with
      | (Some item, d) =>
          randomized_search random_sample room_width room_length rest
            (mkState (layouts st ++ [item]) d (printed st))
      | (None, d) =>
          randomized_search random_sample room_width room_length rest
            (mkState (layouts st) d (printed st ++ [warning furniture]))
      end
  end.

(** ** Concrete inputs used below *)

(** A generator that always yields one half. *)
Definition half : nat → Q := λ _, 1 # 2.

(** A model whose inference call fails. *)
Definition failing_model : Model := λ _, Raise (InferenceError "predict").

(** A model that sends every item to the same normalised corner. *)
Definition corner_model : Model := λ X, Ok ((λ _, [0; 0]) <$> X).

(** Two items that share the edge [x = 2]. *)
Definition left_item : Item :=
  mkItem "Nightstand" (mkPosition 0 0) 0 (mkDimensions 2 2 2).
Definition right_item : Item :=
  mkItem "Nightstand" (mkPosition 2 0) 0 (mkDimensions 2 2 2).

(** A tetrahedron whose minimum corner is (1, 1, 1), with extents
    (1, 1, 1) and every vertex referenced, and an asset store that holds
    it for every furniture type. *)
Definition tetrahedron : Mesh :=
  mkMesh [(1, 1, 1); (2, 1, 1); (1, 2, 1); (1, 1, 2)]
         [(0, 1, 2); (0, 1, 3); (0, 2, 3); (1, 2, 3)]%nat.

Definition tetrahedron_assets : string → option Mesh :=
  λ _, Some tetrahedron.

(** The bed of the catalogue is wider and deeper than a 4 x 4 room. *)
Definition room_exceeded : Prop :=
  4 < width (get_furniture_dimensions "Bed") ∧
  4 < depth (get_furniture_dimensions "Bed").

(** * Properties *)

(** ** The catalogue *)

Example catalog_bed :
  get_furniture_dimensions "Bed" = mkDimensions (667 # 100) 5 (25 # 10).
Proof. vm_compute. reflexivity. Qed.

Lemma catalog_unknown (name : string) :
  name ∉ catalog_names → catalog !! name = None.
Proof.
  intros Hname. unfold catalog.
  repeat (rewrite lookup_insert_ne;
          [ | intros <-; apply Hname; unfold catalog_names; set_solver ]).
  apply lookup_empty.
Qed.

(** C9. [get_furniture_dimensions] is a total function; a name outside the
    catalogue gets width = depth = height = 2, and each of the fourteen
    catalogued names gets its own entry. *)
Theorem get_furniture_dimensions_total :
  (∀ name : string,
     name ∉ catalog_names →
     get_furniture_dimensions name = mkDimensions 2 2 2) ∧
  get_furniture_dimensions "Bed" = mkDimensions 6.67 5 2.5 ∧
  get_furniture_dimensions "Sofa" = mkDimensions 6 3 3 ∧
  get_furniture_dimensions "TV Stand" = mkDimensions 5 1.5 2 ∧
  get_furniture_dimensions "Coffee Table" = mkDimensions 4 2 1.5 ∧
  get_furniture_dimensions "Nightstand" = mkDimensions 2 2 2 ∧
  get_furniture_dimensions "Dresser" = mkDimensions 4 2 4 ∧
  get_furniture_dimensions "Wardrobe" = mkDimensions 4 2 7 ∧
  get_furniture_dimensions "Armchair" = mkDimensions 3 3 3 ∧
  get_furniture_dimensions "Toilet" = mkDimensions 2.5 2 2.5 ∧
  get_furniture_dimensions "Sink" = mkDimensions 2 1.5 2.5 ∧
  get_furniture_dimensions "Shower" = mkDimensions 3 3 7 ∧
  get_furniture_dimensions "Bathtub" = mkDimensions 5 2.5 2 ∧
  get_furniture_dimensions "Door" = mkDimensions 3 0.1 7 ∧
  get_furniture_dimensions "Window" = mkDimensions 4 0.1 4.
Proof.
  split.
  - intros name Hname. unfold get_furniture_dimensions.
    rewrite (catalog_unknown name Hname). reflexivity.
  - repeat split; vm_compute; reflexivity.
Qed.

Lemma get_furniture_dimensions_total_witness :
  get_furniture_dimensions "Lamp" = mkDimensions 2 2 2.
Proof.
  apply (proj1 get_furniture_dimensions_total "Lamp").
  unfold catalog_names. rewrite !elem_of_cons, elem_of_nil.
  intros H. repeat (destruct H as [H | H]; [discriminate H | ]). exact H.
Defined.

(** ** The collision test *)

Lemma leb_le (a b : Q) : leb a b = true ↔ a <= b.
Proof. apply Qle_bool_iff. Qed.

Lemma leb_false (a b : Q) : leb a b = false ↔ b < a.
Proof.
  rewrite <- not_true_iff_false, leb_le. split.
  - apply Qnot_le_lt.
  - apply Qlt_not_le.
Qed.

(** C5. [check_collision] is true exactly when none of the four separating
    inequalities holds, so two footprints that only share an edge or a
    corner do not collide. *)
Theorem check_collision_spec (a b : Item) :
  let ax := x (position a) in let ay := y (position a) in
  let aw := width (dimensions a) in let ad := depth (dimensions a) in
  let bx := x (position b) in let bY := y (position b) in
  let bw := width (dimensions b) in let bd := depth (dimensions b) in
  (check_collision a b = true ↔
     ¬ (ax + aw <= bx ∨ bx + bw <= ax ∨ ay + ad <= bY ∨ bY + bd <= ay)) ∧
  (check_collision a b = true ↔
     bx < ax + aw ∧ ax < bx + bw ∧ bY < ay + ad ∧ ay < bY + bd) ∧
  (ax + aw == bx ∨ bx + bw == ax ∨ ay + ad == bY ∨ bY + bd == ay →
   check_collision a b = false).
Proof.
  cbv zeta. unfold check_collision.
  rewrite negb_true_iff, negb_false_iff, !orb_false_iff, !orb_true_iff.
  rewrite !leb_false, !leb_le.
  split; [ | split ].
  - split.
    + intros (((H1 & H2) & H3) & H4) [H | [H | [H | H]]]; lra.
    + intros H. repeat split; apply Qnot_le_lt; intros Hle; apply H; tauto.
  - tauto.
  - intros [H | [H | [H | H]]]; rewrite H;
      [ left; left; left | left; left; right | left; right | right ];
      apply Qle_refl.
Qed.

Lemma check_collision_spec_witness :
  check_collision left_item right_item = false.
Proof.
  apply (proj2 (proj2 (check_collision_spec left_item right_item))).
  left. reflexivity.
Defined.

Lemma check_collision_symmetric_aux (a b : Item) :
  check_collision a b = check_collision b a.
Proof.
  unfold check_collision. f_equal.
  destruct (leb (x (position a) + width (dimensions a)) (x (position b)));
  destruct (leb (x (position b) + width (dimensions b)) (x (position a)));
  destruct (leb (y (position a) + depth (dimensions a)) (y (position b)));
  destruct (leb (y (position b) + depth (dimensions b)) (y (position a)));
  reflexivity.
Qed.

(** C10. The collision test does not depend on the order of its
    arguments. *)
Theorem check_collision_symmetric (a b : Item) :
  check_collision a b = check_collision b a.
Proof.
  unfold check_collision.
  rewrite (orb_comm (leb (x (position a) + width (dimensions a))
                         (x (position b)))).
  rewrite <- !orb_assoc.
  rewrite (orb_comm (leb (y (position a) + depth (dimensions a))
                         (y (position b)))).
  reflexivity.
Qed.

(** ** The placement loop *)

Lemma has_collision_false (new_item : Item) (l : list Item) :
  has_collision new_item l = false ↔
  Forall (λ existing, check_collision new_item existing = false) l.
Proof.
  induction l as [ | e l IH]; simpl.
  - split; [ constructor | reflexivity ].
  - destruct (check_collision new_item e) eqn:He.
    + split; [ discriminate | ]. intros H. inversion H; congruence.
    + rewrite IH. split.
      * intros H. constructor; assumption.
      * intros H. inversion H; assumption.
Qed.

Lemma non_overlapping_nil : non_overlapping [].
Proof. intros i j a b _ H. rewrite lookup_nil in H. discriminate. Qed.

Lemma non_overlapping_snoc (l : list Item) (new_item : Item) :
  non_overlapping l →
  has_collision new_item l = false →
  non_overlapping (l ++ [new_item]).
Proof.
  intros Hl Hnew. rewrite has_collision_false, Forall_lookup in Hnew.
  intros i j a b Hij Ha Hb.
  apply lookup_snoc_Some in Ha as [[Hi Ha] | [Hi ->]];
    apply lookup_snoc_Some in Hb as [[Hj Hb] | [Hj ->]].
  - exact (Hl i j a b Hij Ha Hb).
  - rewrite check_collision_symmetric_aux. exact (Hnew i a Ha).
  - exact (Hnew j b Hb).
  - congruence.
Qed.

Section engine_facts.
Variable random_sample : nat → Q.
Variables room_width room_length : Q.
Variable predictions : option (list (list Q)).

Local Abbreviation cand :=
  (candidate random_sample room_width room_length predictions).
Local Abbreviation loop :=
  (place_loop random_sample room_width room_length predictions).
Local Abbreviation body :=
  (place_furniture random_sample room_width room_length predictions).
Local Abbreviation run :=
  (place_all random_sample room_width room_length predictions).
Local Abbreviation exits :=
  (loop_exit random_sample room_width room_length predictions).
Local Abbreviation hinted := (hint_available predictions).

Lemma place_loop_exit (budget i : nat) (furniture : string)
    (dims : Dimensions) (first : nat) (st : State) (p : Placement) :
  loop budget i furniture dims first st = Ok p →
  exits i furniture dims first budget st p.
Proof.
  revert first st.
  induction budget as [ | budget IH]; intros first st Hrun; simpl in Hrun.
  - injection Hrun as <-. apply exit_exhausted; simpl; auto with lia.
  - destruct (cand i dims first (drawn st)) as [[pos d'] | e] eqn:Hc;
      [ | discriminate ].
    destruct (has_collision (mkItem furniture pos 0 dims) (layouts st))
      eqn:Hcol.
    + apply IH in Hrun.
      destruct Hrun as [pos' d1 d1' Hp Hatt Hc' Hcol' Hl Hpr
                       | Hp Hatt Hl Hpr]; simpl in *.
      * apply (exit_placed _ _ _ _ _ _ _ _ _ _ _ pos' d1 d1'); auto with lia.
      * apply exit_exhausted; auto with lia.
    + injection Hrun as <-.
      apply (exit_placed _ _ _ _ _ _ _ _ _ _ _ pos (drawn st) d'); simpl;
        auto with lia.
Qed.

Lemma candidate_returns (i : nat) (dims : Dimensions) (n d : nat) :
  hinted i → ∃ r, cand i dims n d = Ok r.
Proof.
  unfold hint_available, candidate. intros Hhint.
  destruct n, predictions as [rows | ]; simpl; eauto.
  destruct Hhint as (row & p0 & p1 & -> & -> & ->). eauto.
Qed.

Lemma place_loop_returns (budget i : nat) (furniture : string)
    (dims : Dimensions) (first : nat) (st : State) :
  hinted i →
  ∃ p, loop budget i furniture dims first st = Ok p.
Proof.
  intros Hhint. revert first st.
  induction budget as [ | budget IH]; intros first st; simpl; eauto.
  destruct (candidate_returns i dims first (drawn st) Hhint)
    as [[pos d'] ->].
  destruct (has_collision _ _); eauto.
Qed.

Lemma place_loop_S (budget i : nat) (furniture : string)
    (dims : Dimensions) (n : nat) (st : State) :
  loop (S budget) i furniture dims n st =
  match cand i dims n (drawn st) with
  | Raise e => Raise e
  | Ok (pos, drawn') =>
      if has_collision (mkItem furniture pos 0 dims) (layouts st) then
        loop budget i furniture dims (S n)
          (mkState (layouts st) drawn' (printed st))
      else
        Ok (mkPlacement
              (mkState (layouts st ++ [mkItem furniture pos 0 dims])
                       drawn' (printed st))
              n true)
  end.
Proof. reflexivity. Qed.

(** With nothing placed yet the first candidate is accepted. *)
Lemma place_furniture_first (i : nat) (furniture : string) (st : State)
    (p : Placement) :
  layouts st = [] →
  body i furniture st = Ok p →
  placed p = true ∧ attempts p = 0%nat.
Proof.
  intros Hempty. unfold place_furniture.
  change max_attempts with (S 49). rewrite place_loop_S, Hempty.
  destruct (cand i (get_furniture_dimensions furniture) 0%nat (drawn st))
    as [[pos d'] | e]; [ | discriminate ].
  cbn [has_collision placed]. intros Hrun. injection Hrun as <-. auto.
Qed.

Lemma place_all_cons (i : nat) (furniture : string) (rest : list string)
    (st : State) :
  run i (furniture :: rest) st =
  match body i furniture st with
  | Raise e => Raise e
  | Ok p => run (S i) rest (state p)
  end.
Proof. reflexivity. Qed.

(** The body of the [for] loop: the exit of its [while] loop, plus the
    warning when the item stays unplaced. *)
Lemma place_furniture_exit (i : nat) (furniture : string) (st : State)
    (p : Placement) :
  body i furniture st = Ok p →
  ∃ q, exits i furniture (get_furniture_dimensions furniture)
         0 max_attempts st q ∧
       attempts p = attempts q ∧ placed p = placed q ∧
       layouts (state p) = layouts (state q) ∧
       printed (state p) =
         (if placed q then printed (state q)
          else printed (state q) ++ [warning furniture]).
Proof.
  unfold place_furniture. intros Hrun.
  destruct (loop max_attempts i furniture
              (get_furniture_dimensions furniture) 0%nat st)
    as [q | e] eqn:Hloop; [ | discriminate ].
  exists q. split; [ apply place_loop_exit; exact Hloop | ].
  destruct (placed q) eqn:Hq; injection Hrun as <-; cbn; auto.
Qed.

Lemma place_furniture_returns (i : nat) (furniture : string) (st : State) :
  hinted i → ∃ p, body i furniture st = Ok p.
Proof.
  intros Hhint. unfold place_furniture.
  destruct (place_loop_returns max_attempts i furniture
              (get_furniture_dimensions furniture) 0%nat st Hhint)
    as [q ->].
  destruct (placed q); eauto.
Qed.

(** An invariant of the layout that every collision-free candidate
    preserves holds of whatever [place_all] returns. *)
Lemma place_all_invariant (Inv : list Item → Prop) :
  (∀ (l : list Item) (i : nat) (furniture : string) (n d d' : nat)
     (pos : Position),
      Inv l →
      cand i (get_furniture_dimensions furniture) n d = Ok (pos, d') →
      has_collision
        (mkItem furniture pos 0 (get_furniture_dimensions furniture)) l
        = false →
      Inv (l ++ [mkItem furniture pos 0
                   (get_furniture_dimensions furniture)])) →
  ∀ (selected : list string) (i : nat) (st st' : State),
    Inv (layouts st) →
    run i selected st = Ok st' →
    Inv (layouts st').
Proof.
  intros Hstep selected.
  induction selected as [ | furniture rest IH]; intros i st st' Hinv Hrun.
  - injection Hrun as <-. exact Hinv.
  - rewrite place_all_cons in Hrun.
    destruct (body i furniture st) as [p | e] eqn:Hbody; [ | discriminate ].
    apply place_furniture_exit in Hbody
      as (q & Hexit & _ & _ & Hlay & _).
    apply IH in Hrun; [ exact Hrun | ]. rewrite Hlay.
    destruct Hexit as [pos d d' Hp Hatt Hc Hcol Hl Hpr | Hp Hatt Hl Hpr];
      rewrite Hl.
    + eapply Hstep; eassumption.
    + exact Hinv.
Qed.

Lemma place_all_returns (selected : list string) (i : nat) (st : State) :
  (∀ j, hinted j) →
  ∃ st', run i selected st = Ok st'.
Proof.
  intros Hhint. revert i st.
  induction selected as [ | furniture rest IH]; intros i st.
  - simpl. eauto.
  - rewrite place_all_cons.
    destruct (place_furniture_returns i furniture st (Hhint i)) as [p ->].
    apply IH.
Qed.
End engine_facts.

(** C1. In every layout that [generate_layouts] returns, two different
    entries never collide. *)
Theorem generate_layouts_non_overlapping (model : option Model)
    (random_sample : nat → Q) (room_width room_length room_height : Q)
    (selected_furniture : list string) (drawn0 : nat) (st : State) :
  generate_layouts model random_sample room_width room_length room_height
    selected_furniture drawn0 = Ok st →
  ∀ (i j : nat) (a b : Item),
    i ≠ j → layouts st !! i = Some a → layouts st !! j = Some b →
    check_collision a b = false.
Proof.
  unfold generate_layouts. intros Hrun.
  destruct (match model with
            | Some m =>
                match m (map (λ _, room_features room_width room_length
                                     room_height) selected_furniture) with
                | Ok rows => Ok (Some rows)
                | Raise e => Raise e
                end
            | None => Ok None
            end) as [predictions | e]; [ | discriminate ].
  change (non_overlapping (layouts st)).
  eapply (place_all_invariant random_sample room_width room_length
            predictions non_overlapping); [ | | exact Hrun ].
  - intros l i furniture n d d' pos Hl _ Hcol.
    apply non_overlapping_snoc; assumption.
  - apply non_overlapping_nil.
Qed.

Lemma generate_layouts_non_overlapping_witness :
  ∃ a b st,
    generate_layouts (Some corner_model) half 10 10 8
      ["Nightstand"; "Nightstand"] 0 = Ok st ∧
    layouts st = [a; b] ∧ check_collision a b = false.
Proof.
  eexists _, _, _. split; [ vm_compute; reflexivity | ].
  split; [ reflexivity | ].
  eapply (λ H, generate_layouts_non_overlapping (Some corner_model) half
                 10 10 8 ["Nightstand"; "Nightstand"] 0%nat _ H 0%nat 1%nat).
  - vm_compute. reflexivity.
  - discriminate.
  - reflexivity.
  - reflexivity.
Defined.

(** ** Room bounds *)

Lemma ltb_lt (a b : Q) : ltb a b = true ↔ a < b.
Proof. unfold ltb. rewrite negb_true_iff. apply leb_false. Qed.

Lemma ltb_ge (a b : Q) : ltb a b = false ↔ b <= a.
Proof. unfold ltb. rewrite negb_false_iff. apply Qle_bool_iff. Qed.

Lemma clamp_range (p hi : Q) :
  0 <= hi → 0 <= py_max 0 (py_min p hi) ∧ py_max 0 (py_min p hi) <= hi.
Proof.
  intros Hhi. unfold py_max, py_min.
  destruct (ltb hi p) eqn:H1.
  - destruct (ltb 0 hi) eqn:H2; split; lra.
  - apply ltb_ge in H1.
    destruct (ltb 0 p) eqn:H2.
    + apply ltb_lt in H2. split; lra.
    + split; lra.
Qed.

Lemma uniform_range (random_sample : nat → Q) (hi : Q) (k : nat) :
  unit_samples random_sample → 0 <= hi →
  0 <= (uniform random_sample 0 hi k).1 ∧
  (uniform random_sample 0 hi k).1 <= hi.
Proof.
  intros Hu Hhi. destruct (Hu k) as [H0 H1]. simpl.
  split; nra.
Qed.

Lemma unit_samples_half : unit_samples half.
Proof. intros k. unfold half. split; lra. Qed.

Lemma candidate_in_envelope (random_sample : nat → Q)
    (room_width room_length : Q) (predictions : option (list (list Q)))
    (i : nat) (furniture : string) (dims : Dimensions) (n d d' : nat)
    (pos : Position) :
  unit_samples random_sample →
  candidate random_sample room_width room_length predictions i dims n d
    = Ok (pos, d') →
  fits_room room_width room_length (mkItem furniture pos 0 dims) →
  inside_envelope room_width room_length (mkItem furniture pos 0 dims).
Proof.
  intros Hu Hc [Hw Hd]. simpl in Hw, Hd.
  assert (Hx : 0 <= room_width - width dims) by lra.
  assert (Hy : 0 <= room_length - depth dims) by lra.
  assert (Hrandom :
    ∀ k k', inside_envelope room_width room_length
      (mkItem furniture
         (mkPosition
            (uniform random_sample 0 (room_width - width dims) k).1
            (uniform random_sample 0 (room_length - depth dims) k').1)
         0 dims)).
  { intros k k'.
    destruct (uniform_range random_sample _ k Hu Hx) as [Hx0 Hx1].
    destruct (uniform_range random_sample _ k' Hu Hy) as [Hy0 Hy1].
    unfold inside_envelope. cbn [position dimensions x y width depth].
    auto. }
  unfold candidate in Hc.
  destruct n as [ | n], predictions as [rows | ];
    try (injection Hc as <- _; apply Hrandom).
  destruct (rows !! i) as [row | ]; [ | discriminate ].
  destruct (row !! 0%nat) as [p0 | ]; [ | discriminate ].
  destruct (row !! 1%nat) as [p1 | ]; [ | discriminate ].
  injection Hc as <- _.
  destruct (clamp_range (p0 * room_width) _ Hx) as [Hx0 Hx1].
  destruct (clamp_range (p1 * room_length) _ Hy) as [Hy0 Hy1].
  unfold inside_envelope. cbn [position dimensions x y width depth].
  auto.
Qed.

(** C2, as the code has it.  With samples from the unit interval, every
    placed item that is no wider and no deeper than the room has its
    corner in the placement envelope: [0 <= x <= room_width - width] and
    [0 <= y <= room_length - depth]. *)
Theorem placed_items_in_envelope (model : option Model)
    (random_sample : nat → Q) (room_width room_length room_height : Q)
    (selected_furniture : list string) (drawn0 : nat) (st : State)
    (item : Item) :
  unit_samples random_sample →
  generate_layouts model random_sample room_width room_length room_height
    selected_furniture drawn0 = Ok st →
  item ∈ layouts st →
  fits_room room_width room_length item →
  inside_envelope room_width room_length item.
Proof.
  unfold generate_layouts. intros Hu Hrun.
  destruct (match model with
            | Some m =>
                match m (map (λ _, room_features room_width room_length
                                     room_height) selected_furniture) with
                | Ok rows => Ok (Some rows)
                | Raise e => Raise e
                end
            | None => Ok None
            end) as [predictions | e]; [ | discriminate ].
  revert item.
  apply (proj1 (Forall_forall
                  (λ item, fits_room room_width room_length item →
                           inside_envelope room_width room_length item)
                  (layouts st))).
  eapply (place_all_invariant random_sample room_width room_length
            predictions
            (Forall (λ item, fits_room room_width room_length item →
                             inside_envelope room_width room_length item)));
    [ | | exact Hrun ].
  - intros l i furniture n d d' pos Hl Hc _.
    apply Forall_app. split; [ exact Hl | ].
    constructor; [ | constructor ].
    eapply candidate_in_envelope; eassumption.
  - constructor.
Qed.

Lemma placed_items_in_envelope_witness :
  ∃ st item,
    generate_layouts (Some corner_model) half 10 10 8 ["Bed"] 0 = Ok st ∧
    layouts st = [item] ∧ inside_envelope 10 10 item.
Proof.
  eexists _, _. split; [ vm_compute; reflexivity | ].
  split; [ reflexivity | ].
  eapply (λ H, placed_items_in_envelope (Some corner_model) half 10 10 8
                 ["Bed"] 0%nat _ _ unit_samples_half H).
  - vm_compute. reflexivity.
  - apply list_elem_of_singleton. reflexivity.
  - split; cbn; lra.
Defined.

(** C2 as stated fails: a bed in a 4 x 4 room is placed although it is
    6.67 wide, so its footprint leaves the room, both when the position is
    drawn at random and when it is the clamped prediction. *)
Lemma oversized_item_leaves_room :
  (∃ st item,
     generate_layouts None half 4 4 8 ["Bed"] 0 = Ok st ∧
     layouts st = [item] ∧
     ¬ (0 <= x (position item)) ∧
     ¬ (x (position item) + width (dimensions item) <= 4)) ∧
  (∃ st item,
     generate_layouts (Some corner_model) half 4 4 8 ["Bed"] 0 = Ok st ∧
     layouts st = [item] ∧
     ¬ (x (position item) + width (dimensions item) <= 4)).
Proof.
  split.
  - eexists _, _. split; [ vm_compute; reflexivity | ].
    split; [ reflexivity | ].
    cbn. split; lra.
  - eexists _, _. split; [ vm_compute; reflexivity | ].
    split; [ reflexivity | ].
    cbn. lra.
Qed.

(** ** Bounds of a transformed mesh *)

Lemma minimum_compat (l : list Q) (a a' : Q) :
  a == a' → minimum a l == minimum a' l.
Proof.
  revert a a'. induction l as [ | b l IH]; intros a a' Ha; simpl.
  - exact Ha.
  - apply IH. rewrite Ha. reflexivity.
Qed.

Lemma maximum_compat (l : list Q) (a a' : Q) :
  a == a' → maximum a l == maximum a' l.
Proof.
  revert a a'. induction l as [ | b l IH]; intros a a' Ha; simpl.
  - exact Ha.
  - apply IH. rewrite Ha. reflexivity.
Qed.

Section monotone_map.
Variable f : Q → Q.
Hypothesis f_compat : Proper (Qeq ==> Qeq) f.
Hypothesis f_mono : Proper (Qle ==> Qle) f.

Lemma minimum_map (l : list Q) (a : Q) :
  minimum (f a) (f <$> l) == f (minimum a l).
Proof.
  revert a. induction l as [ | b l IH]; intros a; simpl.
  - reflexivity.
  - rewrite <- IH. apply minimum_compat. apply Q.min_mono; assumption.
Qed.

Lemma maximum_map (l : list Q) (a : Q) :
  maximum (f a) (f <$> l) == f (maximum a l).
Proof.
  revert a. induction l as [ | b l IH]; intros a; simpl.
  - reflexivity.
  - rewrite <- IH. apply maximum_compat. apply Q.max_mono; assumption.
Qed.
End monotone_map.

Lemma scale_compat (s : Q) : Proper (Qeq ==> Qeq) (Qmult s).
Proof. intros a b Hab. rewrite Hab. reflexivity. Qed.

Lemma scale_mono (s : Q) : 0 <= s → Proper (Qle ==> Qle) (Qmult s).
Proof. intros Hs a b Hab. nra. Qed.

Lemma shift_compat (t : Q) : Proper (Qeq ==> Qeq) (λ q, q + t).
Proof. intros a b Hab. rewrite Hab. reflexivity. Qed.

Lemma shift_mono (t : Q) : Proper (Qle ==> Qle) (λ q, q + t).
Proof. intros a b Hab. lra. Qed.

Lemma transformed_faces (matrix : Transform) (mesh : Mesh) :
  order_preserving matrix → faces (transformed matrix mesh) = faces mesh.
Proof.
  destruct matrix as [s | t]; simpl; [ | reflexivity ].
  intros Hs. destruct (ltb s 0) eqn:E; [ | reflexivity ].
  apply ltb_lt in E. lra.
Qed.

Lemma in_mesh_transformed (matrix : Transform) (mesh : Mesh) :
  order_preserving matrix →
  in_mesh (transformed matrix mesh) = transform_point matrix <$> in_mesh mesh.
Proof.
  intros Hm. unfold in_mesh, referenced_vertices.
  rewrite (transformed_faces matrix mesh Hm).
  generalize (flat_map (λ f : Face, [f.1.1; f.1.2; f.2]) (faces mesh)).
  change (vertices (transformed matrix mesh))
    with (transform_point matrix <$> vertices mesh).
  intros idx. induction idx as [ | i idx IH]; [ reflexivity | ].
  cbn [omap list_omap]. rewrite list_lookup_fmap, IH.
  destruct (vertices mesh !! i); reflexivity.
Qed.

Lemma vx_mk (a b c : Q) : vx (a, b, c) = a.
Proof. reflexivity. Qed.
Lemma vy_mk (a b c : Q) : vy (a, b, c) = b.
Proof. reflexivity. Qed.
Lemma vz_mk (a b c : Q) : vz (a, b, c) = c.
Proof. reflexivity. Qed.

Lemma scaled_axes (s : Q) (l : list Vertex) :
  vx <$> (transform_point (scale_matrix s) <$> l) = Qmult s <$> (vx <$> l) ∧
  vy <$> (transform_point (scale_matrix s) <$> l) = Qmult s <$> (vy <$> l) ∧
  vz <$> (transform_point (scale_matrix s) <$> l) = Qmult s <$> (vz <$> l).
Proof. rewrite <- !list_fmap_compose. repeat split. Qed.

Lemma translated_axes (t : Vertex) (l : list Vertex) :
  vx <$> (transform_point (translation_matrix t) <$> l)
    = (λ q, q + vx t) <$> (vx <$> l) ∧
  vy <$> (transform_point (translation_matrix t) <$> l)
    = (λ q, q + vy t) <$> (vy <$> l) ∧
  vz <$> (transform_point (translation_matrix t) <$> l)
    = (λ q, q + vz t) <$> (vz <$> l).
Proof. rewrite <- !list_fmap_compose. repeat split. Qed.

Lemma bounds_transformed (matrix : Transform) (mesh : Mesh) (lo hi : Vertex) :
  order_preserving matrix →
  bounds mesh = Some (lo, hi) →
  ∃ lo' hi',
    bounds (transformed matrix mesh) = Some (lo', hi') ∧
    veq lo' (transform_point matrix lo) ∧
    veq hi' (transform_point matrix hi).
Proof.
  intros Hm. unfold bounds. rewrite (in_mesh_transformed matrix mesh Hm).
  destruct (in_mesh mesh) as [ | v l]; [ discriminate | ].
  intros Hb. injection Hb as <- <-. rewrite fmap_cons.
  eexists _, _. split; [ reflexivity | ].
  destruct matrix as [s | t]; simpl in Hm; cbn [transform_point]; unfold veq;
    rewrite !vx_mk, !vy_mk, !vz_mk.
  - destruct (scaled_axes s l) as (-> & -> & ->).
    pose proof (scale_compat s) as Hc. pose proof (scale_mono s Hm) as Hmono.
    repeat split;
      first [ apply (minimum_map (Qmult s) Hc Hmono)
            | apply (maximum_map (Qmult s) Hc Hmono) ].
  - destruct (translated_axes t l) as (-> & -> & ->).
    repeat split;
      first [ apply (minimum_map _ (shift_compat _) (shift_mono _))
            | apply (maximum_map _ (shift_compat _) (shift_mono _)) ].
Qed.

(** ** The scale factor *)







(** ** The scaled copy *)

(** C8. The scale-and-position step leaves every object of the store as it
    was, the source mesh among them: the scaled and translated mesh is a
    new object. *)
Theorem scale_and_position_frame (mesh : loc) (furniture : Item) (h : heap)
    (scaled_mesh : loc) (h' : heap) :
  scale_and_position mesh furniture h = Ok (scaled_mesh, h') →
  scaled_mesh ≠ mesh ∧
  h !! scaled_mesh = None ∧
  (∃ source,
     h !! mesh = Some source ∧ h' !! mesh = Some source ∧
     vertices (deref h' mesh) = vertices source ∧
     faces (deref h' mesh) = faces source) ∧
  (∀ l, (l < List.length h)%nat → h' !! l = h !! l).
Proof.
  unfold scale_and_position, copy, alloc, apply_translation, apply_transform.
  destruct (calculate_scale_factor (deref h mesh) (dimensions furniture))
    as [s | e] eqn:Hs; [ | discriminate ].
  intros Hrun. injection Hrun as <- <-.
  assert (Hframe : ∀ l, (l < List.length h)%nat →
            alter (transformed (translation_matrix
                     (x (position furniture), y (position furniture), 0)))
              (List.length h)
              (alter (transformed (scale_matrix s)) (List.length h)
                 (h ++ [deref h mesh])) !! l = h !! l).
  { intros l Hl. rewrite !list_lookup_alter_ne by lia.
    apply lookup_app_l. exact Hl. }
  assert (Hlive : ∃ source, h !! mesh = Some source).
  { unfold deref in Hs. destruct (h !! mesh) as [source | ]; [ eauto | ].
    discriminate Hs. }
  destruct Hlive as [source Hsource].
  assert (Hlt : (mesh < List.length h)%nat)
    by (eapply lookup_lt_Some; exact Hsource).
  split; [ lia | ]. split; [ apply lookup_ge_None; lia | ].
  split; [ | exact Hframe ].
  exists source. pose proof (Hframe mesh Hlt) as Hm.
  unfold deref in Hm |- *. rewrite Hm, Hsource. auto.
Qed.

Lemma scale_and_position_frame_witness :
  ∃ scaled_mesh h',
    scale_and_position 0%nat right_item [tetrahedron] = Ok (scaled_mesh, h') ∧
    scaled_mesh ≠ 0%nat ∧ h' !! 0%nat = Some tetrahedron.
Proof.
  eexists _, _. split; [ vm_compute; reflexivity | ].
  edestruct (scale_and_position_frame 0%nat right_item [tetrahedron])
    as (Hne & _ & (source & Hsrc & Hkept & _) & _).
  - vm_compute. reflexivity.
  - split; [ exact Hne | ].
    injection Hsrc as <-. exact Hkept.
Defined.

(** ** Where the scaled mesh ends up *)

Lemma veq_trans (u v w : Vertex) : veq u v → veq v w → veq u w.
Proof.
  intros (H1 & H2 & H3) (H4 & H5 & H6).
  repeat split; etransitivity; eassumption.
Qed.

Lemma transform_point_veq (matrix : Transform) (u v : Vertex) :
  veq u v → veq (transform_point matrix u) (transform_point matrix v).
Proof.
  intros (H1 & H2 & H3). destruct matrix as [s | t]; cbn [transform_point];
    unfold veq; rewrite !vx_mk, !vy_mk, !vz_mk, H1, H2, H3;
    repeat split; reflexivity.
Qed.

(** The step scales about the origin and then adds the position: the
    minimum corner of the result is the scaled minimum corner of the source
    moved by [(x, y, 0)]. *)
Lemma scale_and_position_min_corner (mesh : loc) (furniture : Item)
    (h : heap) (scaled_mesh : loc) (h' : heap) (source : Mesh)
    (lo hi : Vertex) (s : Q) :
  h !! mesh = Some source →
  bounds source = Some (lo, hi) →
  calculate_scale_factor source (dimensions furniture) = Ok s →
  0 <= s →
  scale_and_position mesh furniture h = Ok (scaled_mesh, h') →
  ∃ lo' hi',
    bounds (deref h' scaled_mesh) = Some (lo', hi') ∧
    veq lo' (s * vx lo + x (position furniture),
             s * vy lo + y (position furniture),
             s * vz lo + 0).
Proof.
  intros Hsrc Hb Hs Hpos.
  unfold scale_and_position, copy, alloc, apply_translation, apply_transform.
  assert (Hd : deref h mesh = source) by (unfold deref; rewrite Hsrc; auto).
  rewrite Hd, Hs. intros Hrun. injection Hrun as <- <-.
  unfold deref.
  rewrite !list_lookup_alter_eq, list_lookup_middle by reflexivity.
  cbn [fmap option_fmap option_map default].
  destruct (bounds_transformed (scale_matrix s) source lo hi Hpos Hb)
    as (lo1 & hi1 & Hb1 & Hlo1 & _).
  destruct (bounds_transformed
              (translation_matrix
                 (x (position furniture), y (position furniture), 0))
              (transformed (scale_matrix s) source) lo1 hi1 I Hb1)
    as (lo2 & hi2 & Hb2 & Hlo2 & _).
  exists lo2, hi2. split; [ exact Hb2 | ].
  eapply veq_trans; [ exact Hlo2 | ].
  eapply veq_trans; [ apply transform_point_veq; exact Hlo1 | ].
  cbn [transform_point]. unfold veq. rewrite !vx_mk, !vy_mk, !vz_mk.
  repeat split; reflexivity.
Qed.

(** C7 fails on the code: for the tetrahedron with minimum corner (1, 1, 1)
    and a nightstand placed at (2, 0), the mesh handed to the plot has its
    minimum corner at (4, 2, 2), not at (2, 0, 0). *)
Theorem scaled_mesh_off_position :
  ∃ vs fs h' lo hi,
    visualize_layouts_3d tetrahedron_assets [right_item] []
      = Ok ([plot_trisurf vs fs], h') ∧
    bounds (mkMesh vs fs) = Some (lo, hi) ∧
    veq lo (4, 2, 2) ∧
    ¬ (vx lo == x (position right_item)) ∧
    ¬ (vy lo == y (position right_item)) ∧
    ¬ (vz lo == 0).
Proof.
  eexists _, _, _, _, _. split; [ vm_compute; reflexivity | ].
  split; [ vm_compute; reflexivity | ].
  repeat split; cbn; lra.
Qed.

(** * Further properties of the placement engine *)

Lemma candidate_raises (random_sample : nat → Q) (room_width room_length : Q)
    (predictions : option (list (list Q))) (i : nat) (dims : Dimensions)
    (n d : nat) (e : exn) :
  candidate random_sample room_width room_length predictions i dims n d
    = Raise e →
  e = IndexError.
Proof.
  unfold candidate.
  destruct n, predictions as [rows | ]; try discriminate.
  destruct (rows !! i) as [row | ]; [ | congruence ].
  destruct (row !! 0%nat); [ | congruence ].
  destruct (row !! 1%nat); [ discriminate | congruence ].
Qed.

Lemma candidate_drawn (random_sample : nat → Q) (room_width room_length : Q)
    (predictions : option (list (list Q))) (i : nat) (dims : Dimensions)
    (n d d' : nat) (pos : Position) :
  candidate random_sample room_width room_length predictions i dims n d
    = Ok (pos, d') →
  (d <= d' <= d + 2)%nat.
Proof.
  unfold candidate.
  destruct n, predictions as [rows | ];
    try (intros H; injection H as _ <-; lia).
  destruct (rows !! i) as [row | ]; [ | discriminate ].
  destruct (row !! 0%nat); [ | discriminate ].
  destruct (row !! 1%nat); [ | discriminate ].
  intros H. injection H as _ <-. lia.
Qed.

Section engine_more.
Variable random_sample : nat → Q.
Variables room_width room_length : Q.
Variable predictions : option (list (list Q)).

Local Abbreviation cand' :=
  (candidate random_sample room_width room_length predictions).
Local Abbreviation loop' :=
  (place_loop random_sample room_width room_length predictions).
Local Abbreviation body' :=
  (place_furniture random_sample room_width room_length predictions).
Local Abbreviation run' :=
  (place_all random_sample room_width room_length predictions).

Lemma place_loop_raises (budget i : nat) (furniture : string)
    (dims : Dimensions) (n : nat) (st : State) (e : exn) :
  loop' budget i furniture dims n st = Raise e → e = IndexError.
Proof.
  revert n st. induction budget as [ | budget IH]; intros n st;
    [ discriminate | ].
  rewrite place_loop_S.
  destruct (cand' i dims n (drawn st)) as [[pos d'] | e'] eqn:Hc.
  - destruct (has_collision _ _); [ apply IH | discriminate ].
  - intros H. injection H as <-. eapply candidate_raises; exact Hc.
Qed.

Lemma place_loop_drawn (budget i : nat) (furniture : string)
    (dims : Dimensions) (n : nat) (st : State) (p : Placement) :
  loop' budget i furniture dims n st = Ok p →
  (drawn st <= drawn (state p) <= drawn st + 2 * budget)%nat.
Proof.
  revert n st. induction budget as [ | budget IH]; intros n st.
  - intros H. injection H as <-. simpl. lia.
  - rewrite place_loop_S.
    destruct (cand' i dims n (drawn st)) as [[pos d'] | e'] eqn:Hc;
      [ | discriminate ].
    apply candidate_drawn in Hc.
    destruct (has_collision _ _).
    + intros H. apply IH in H. simpl in H. lia.
    + intros H. injection H as <-. simpl. lia.
Qed.

Lemma place_furniture_raises (i : nat) (furniture : string) (st : State)
    (e : exn) :
  body' i furniture st = Raise e → e = IndexError.
Proof.
  unfold place_furniture.
  destruct (loop' max_attempts i furniture
              (get_furniture_dimensions furniture) 0%nat st)
    as [q | e'] eqn:Hloop.
  - destruct (placed q); discriminate.
  - intros H. injection H as <-. eapply place_loop_raises; exact Hloop.
Qed.

Lemma place_furniture_drawn (i : nat) (furniture : string) (st : State)
    (p : Placement) :
  body' i furniture st = Ok p →
  (drawn st <= drawn (state p) <= drawn st + 2 * max_attempts)%nat.
Proof.
  unfold place_furniture.
  destruct (loop' max_attempts i furniture
              (get_furniture_dimensions furniture) 0%nat st)
    as [q | e'] eqn:Hloop; [ | discriminate ].
  apply place_loop_drawn in Hloop.
  destruct (placed q); intros H; injection H as <-; simpl; exact Hloop.
Qed.

Lemma place_furniture_missing_row (i : nat) (furniture : string) (st : State)
    (rows : list (list Q)) :
  predictions = Some rows → rows !! i = None →
  body' i furniture st = Raise IndexError.
Proof.
  intros Hp Hrow. unfold place_furniture.
  change max_attempts with (S 49). rewrite place_loop_S.
  unfold candidate. rewrite Hp, Hrow. reflexivity.
Qed.

Lemma place_all_raises (selected : list string) (i : nat) (st : State)
    (e : exn) :
  run' i selected st = Raise e → e = IndexError.
Proof.
  revert i st. induction selected as [ | furniture rest IH]; intros i st;
    [ discriminate | ].
  rewrite place_all_cons.
  destruct (body' i furniture st) as [p | e'] eqn:Hbody.
  - apply IH.
  - intros H. injection H as <-. eapply place_furniture_raises; exact Hbody.
Qed.

Lemma place_all_missing_row (selected : list string) (i i0 : nat) (st : State)
    (rows : list (list Q)) :
  predictions = Some rows → rows !! i0 = None →
  (i <= i0 < i + List.length selected)%nat →
  run' i selected st = Raise IndexError.
Proof.
  intros Hp Hrow. revert i st.
  induction selected as [ | furniture rest IH]; intros i st Hi;
    [ simpl in Hi; lia | ].
  rewrite place_all_cons.
  destruct (decide (i = i0)) as [-> | Hne].
  - rewrite (place_furniture_missing_row i0 furniture st rows Hp Hrow).
    reflexivity.
  - destruct (body' i furniture st) as [p | e'] eqn:Hbody.
    + apply IH. simpl in Hi. lia.
    + apply place_furniture_raises in Hbody. congruence.
Qed.

(** Every furniture of the request ends either in the layout or in a
    warning, and the generator advances by at most two draws per
    attempt. *)
Lemma place_all_accounts (selected : list string) (i : nat) (st st' : State) :
  run' i selected st = Ok st' →
  (List.length (layouts st') + List.length (printed st')
   = List.length (layouts st) + List.length (printed st)
     + List.length selected)%nat ∧
  (drawn st <= drawn st'
   <= drawn st + 2 * max_attempts * List.length selected)%nat.
Proof.
  revert i st. induction selected as [ | furniture rest IH]; intros i st.
  - intros H. injection H as <-. simpl. lia.
  - rewrite place_all_cons.
    destruct (body' i furniture st) as [p | e'] eqn:Hbody; [ | discriminate ].
    intros Hrun. apply IH in Hrun as [Hcount Hdrawn].
    pose proof (place_furniture_drawn _ _ _ _ Hbody) as Hd.
    apply place_furniture_exit in Hbody
      as (q & Hexit & _ & _ & Hlay & Hprinted).
    rewrite Hlay, Hprinted in Hcount.
    assert (Hstep :
      (List.length (layouts (state q)) +
       List.length (if placed q then printed (state q)
                    else printed (state q) ++ [warning furniture])
       = List.length (layouts st) + List.length (printed st) + 1)%nat).
    { destruct Hexit as [pos d d' Hq Hn Hc Hcol Hl Hpr | Hq Hn Hl Hpr];
        rewrite Hq, Hl, Hpr, ?length_app; simpl; lia. }
    cbn [List.length]. unfold max_attempts in *. split; lia.
Qed.

(** The types of the placed items, in the order of the layout, are picked
    from the request in its order. *)
Lemma place_all_types (selected : list string) (i : nat) (st st' : State) :
  run' i selected st = Ok st' →
  ∃ new,
    layouts st' = layouts st ++ new ∧
    (type <$> new) `sublist_of` selected.
Proof.
  revert i st. induction selected as [ | furniture rest IH]; intros i st.
  - intros H. injection H as <-. exists []. rewrite app_nil_r.
    split; [ reflexivity | constructor ].
  - rewrite place_all_cons.
    destruct (body' i furniture st) as [p | e'] eqn:Hbody; [ | discriminate ].
    intros Hrun. apply IH in Hrun as (new & Hnew & Hsub).
    apply place_furniture_exit in Hbody as (q & Hexit & _ & _ & Hlay & _).
    rewrite Hlay in Hnew.
    destruct Hexit as [pos d d' Hq Hn Hc Hcol Hl Hpr | Hq Hn Hl Hpr];
      rewrite Hl in Hnew.
    + exists (mkItem furniture pos 0 (get_furniture_dimensions furniture)
              :: new).
      rewrite Hnew, <- app_assoc. split; [ reflexivity | ].
      rewrite fmap_cons. cbn [type]. apply sublist_skip. exact Hsub.
    + exists new. split; [ exact Hnew | ]. apply sublist_cons. exact Hsub.
Qed.
End engine_more.

(** ** The attempt budget *)

Section attempt_trace.
Variable random_sample : nat → Q.
Variables room_width room_length : Q.
Variable predictions : option (list (list Q)).
Variable i : nat.
Variable furniture : string.
Variable dims : Dimensions.

Local Abbreviation cand_at :=
  (candidate random_sample room_width room_length predictions i dims).
Local Abbreviation after :=
  (drawn_after random_sample room_width room_length predictions i dims).
Local Abbreviation try :=
  (attempt random_sample room_width room_length predictions i furniture dims).
Local Abbreviation loop_at :=
  (place_loop random_sample room_width room_length predictions).

Lemma attempt_first (first d d' : nat) (pos : Position) :
  cand_at first d = Ok (pos, d') →
  try first d 0%nat = Ok (mkItem furniture pos 0 dims, d').
Proof. unfold attempt. cbn [drawn_after Nat.add]. intros ->. reflexivity. Qed.

Lemma drawn_after_next (first d d' k : nat) (pos : Position) :
  cand_at first d = Ok (pos, d') →
  after first d (S k) = after (S first) d' k.
Proof. intros Hc. cbn [drawn_after]. rewrite Hc. reflexivity. Qed.

Lemma attempt_next (first d d' k : nat) (pos : Position) :
  cand_at first d = Ok (pos, d') →
  try first d (S k) = try (S first) d' k.
Proof.
  intros Hc. unfold attempt.
  rewrite (drawn_after_next first d d' k pos Hc), Nat.add_succ_r.
  reflexivity.
Qed.

(** The run of the [while] loop, attempt by attempt: every attempt before
    the last one tried an item that collides; the loop places the item of
    the first attempt that does not, and gives up only when the whole
    budget collided. *)
Lemma place_loop_trace (budget first : nat) (st : State) (p : Placement) :
  loop_at budget i furniture dims first st = Ok p →
  (first <= attempts p <= first + budget)%nat ∧
  (∀ k, (k + first < attempts p)%nat →
        ∃ item d', try first (drawn st) k = Ok (item, d') ∧
                   has_collision item (layouts st) = true) ∧
  (placed p = true →
   (attempts p < first + budget)%nat ∧
   ∃ item d',
     try first (drawn st) (attempts p - first) = Ok (item, d') ∧
     has_collision item (layouts st) = false ∧
     state p = mkState (layouts st ++ [item]) d' (printed st)) ∧
  (placed p = false →
   attempts p = (first + budget)%nat ∧
   state p = mkState (layouts st) (after first (drawn st) budget)
               (printed st)).
Proof.
  revert first st. induction budget as [ | budget IH]; intros first st.
  - intros H. injection H as <-. cbn [attempts placed state drawn_after].
    split; [ lia | ]. split; [ intros k Hk; lia | ].
    split; [ discriminate | ]. intros _. split; [ lia | ].
    destruct st; reflexivity.
  - rewrite place_loop_S.
    destruct (cand_at first (drawn st)) as [[pos d1] | e] eqn:Hc;
      [ | discriminate ].
    pose proof (attempt_first _ _ _ _ Hc) as Hfirst.
    destruct (has_collision (mkItem furniture pos 0 dims) (layouts st))
      eqn:Hcol.
    + intros Hrun. apply IH in Hrun as (Hn & Hbefore & Htrue & Hfalse).
      cbn [layouts drawn printed] in *.
      split; [ lia | ]. split; [ | split ].
      * intros [ | k] Hk.
        -- eauto.
        -- rewrite (attempt_next _ _ _ _ _ Hc). apply Hbefore. lia.
      * intros Hp. destruct (Htrue Hp) as (Hlt & item & d' & Ht & Hc' & Hs).
        split; [ lia | ]. exists item, d'.
        replace (attempts p - first)%nat with (S (attempts p - S first))
          by lia.
        rewrite (attempt_next _ _ _ _ _ Hc). auto.
      * intros Hp. destruct (Hfalse Hp) as [Hatt Hs].
        split; [ lia | ].
        rewrite (drawn_after_next _ _ _ _ _ Hc). exact Hs.
    + intros H. injection H as <-. cbn [attempts placed state].
      split; [ lia | ]. split; [ intros k Hk; lia | ].
      split; [ | discriminate ]. intros _. split; [ lia | ].
      rewrite Nat.sub_diag. eauto.
Qed.

Lemma candidate_without_hint (d : nat) :
  ¬ hint_available predictions i → cand_at 0%nat d = Raise IndexError.
Proof.
  unfold hint_available, candidate. intros Hno.
  destruct predictions as [rows | ]; [ | exfalso; apply Hno; exact I ].
  destruct (rows !! i) as [row | ] eqn:Hrow; [ | reflexivity ].
  destruct (row !! 0%nat) as [p0 | ] eqn:H0; [ | reflexivity ].
  destruct (row !! 1%nat) as [p1 | ] eqn:H1; [ | reflexivity ].
  exfalso. apply Hno. exists row, p0, p1. auto.
Qed.
End attempt_trace.

(** C3, as the code has it.  For any item, so also for one that is wider
    or deeper than the room, the body of the [for] loop ends within the
    budget of 50 attempts.  It raises, an [IndexError], exactly when the
    predictions have no row for the item.  Otherwise every attempt before
    the last tried a position that collides with a placed item; the item
    is appended at the first candidate that collides with nothing placed,
    which is attempt 0 when nothing is placed yet, and it is left out, with
    a warning, only after all 50 candidates collided. *)
Theorem place_furniture_within_budget (random_sample : nat → Q)
    (room_width room_length : Q) (predictions : option (list (list Q)))
    (i : nat) (furniture : string) (st : State) :
  let dims := get_furniture_dimensions furniture in
  let try :=
    attempt random_sample room_width room_length predictions i furniture dims
      0 (drawn st) in
  let run :=
    place_furniture random_sample room_width room_length predictions
      i furniture st in
  (¬ hint_available predictions i → run = Raise IndexError) ∧
  (hint_available predictions i →
   ∃ p,
     run = Ok p ∧
     (attempts p <= max_attempts)%nat ∧
     (∀ k, (k < attempts p)%nat →
           ∃ item d', try k = Ok (item, d') ∧
                      has_collision item (layouts st) = true) ∧
     (placed p = true →
      (attempts p < max_attempts)%nat ∧
      ∃ item d',
        try (attempts p) = Ok (item, d') ∧
        has_collision item (layouts st) = false ∧
        state p = mkState (layouts st ++ [item]) d' (printed st)) ∧
     (placed p = false →
      attempts p = max_attempts ∧
      state p =
        mkState (layouts st)
          (drawn_after random_sample room_width room_length predictions i
             dims 0 (drawn st) max_attempts)
          (printed st ++ [warning furniture])) ∧
     (layouts st = [] → placed p = true ∧ attempts p = 0%nat)).
Proof.
  cbv zeta. split.
  - intros Hno. unfold place_furniture.
    change max_attempts with (S 49). rewrite place_loop_S.
    rewrite (candidate_without_hint _ _ _ _ _ _ _ Hno). reflexivity.
  - intros Hhint.
    destruct (place_furniture_returns random_sample room_width room_length
                predictions i furniture st Hhint) as [p Hp].
    exists p. split; [ exact Hp | ].
    assert (Hempty : layouts st = [] → placed p = true ∧ attempts p = 0%nat)
      by (intros He; exact (place_furniture_first _ _ _ _ _ _ _ _ He Hp)).
    revert Hp Hempty. unfold place_furniture.
    destruct (place_loop random_sample room_width room_length predictions
                max_attempts i furniture (get_furniture_dimensions furniture)
                0 st) as [q | e] eqn:Hloop; [ | discriminate ].
    pose proof (place_loop_trace _ _ _ _ _ _ _ _ _ _ _ Hloop)
      as (Hn & Hbefore & Htrue & Hfalse).
    rewrite Nat.add_0_l in Hn, Htrue, Hfalse.
    destruct (placed q) eqn:Hq; intros Hp Hempty; injection Hp as <-.
    + split; [ exact (proj2 Hn) | ]. split.
      { intros k Hk. apply Hbefore. rewrite Nat.add_0_r. exact Hk. }
      split; [ | split; [ congruence | exact Hempty ] ].
      intros _. destruct (Htrue eq_refl) as (Hlt & item & d' & Ht & Hc & Hs).
      rewrite Nat.sub_0_r in Ht. split; [ exact Hlt | eauto ].
    + cbn [attempts placed state]. split; [ exact (proj2 Hn) | ]. split.
      { intros k Hk. apply Hbefore. rewrite Nat.add_0_r. exact Hk. }
      split; [ discriminate | ]. split; [ | exact Hempty ].
      intros _. destruct (Hfalse eq_refl) as [Hatt Hs].
      split; [ exact Hatt | ]. rewrite Hs. reflexivity.
Qed.

Lemma place_furniture_within_budget_witness :
  place_furniture half 4 4 (Some []) 0 "Bed" (mkState [] 0 [])
    = Raise IndexError ∧
  ∃ p,
    place_furniture half 4 4 None 0 "Bed" (mkState [] 0 []) = Ok p ∧
    placed p = true ∧ attempts p = 0%nat.
Proof.
  split.
  - apply (proj1 (place_furniture_within_budget half 4 4 (Some []) 0 "Bed"
                    (mkState [] 0 []))).
    intros (row & p0 & p1 & Hrow & _). discriminate Hrow.
  - destruct (proj2 (place_furniture_within_budget half 4 4 None 0 "Bed"
                       (mkState [] 0 [])) I)
      as (p & Hp & _ & _ & _ & _ & Hfirst).
    exists p. split; [ exact Hp | ]. apply Hfirst. reflexivity.
Defined.

(** C3 as stated fails: the bed is wider than the 4 x 4 room, yet it is in
    the returned layout and no warning is printed. *)
Lemma oversized_item_is_placed :
  room_exceeded ∧
  ∃ st pos,
    generate_layouts None half 4 4 8 ["Bed"] 0 = Ok st ∧
    layouts st = [mkItem "Bed" pos 0 (get_furniture_dimensions "Bed")] ∧
    printed st = [].
Proof.
  split.
  - unfold room_exceeded. split; vm_compute; reflexivity.
  - eexists _, _. split; [ vm_compute; reflexivity | ].
    split; reflexivity.
Qed.

(** ** The predictive model *)

Lemma candidate_random (random_sample : nat → Q) (room_width room_length : Q)
    (i : nat) (furniture : string) (dims : Dimensions) (n d : nat) :
  candidate random_sample room_width room_length None i dims n d
  = Ok (position
          (random_candidate random_sample room_width room_length furniture
             dims d), S (S d)).
Proof. destruct n; reflexivity. Qed.

Lemma place_loop_random (random_sample : nat → Q)
    (room_width room_length : Q) (budget i : nat) (furniture : string)
    (dims : Dimensions) (n : nat) (st : State) :
  ∃ p,
    place_loop random_sample room_width room_length None budget i furniture
      dims n st = Ok p ∧
    match random_attempts random_sample room_width room_length furniture
            dims (layouts st) budget (drawn st) with
    | (Some item, d) =>
        placed p = true ∧
        state p = mkState (layouts st ++ [item]) d (printed st)
    | (None, d) =>
        placed p = false ∧ state p = mkState (layouts st) d (printed st)
    end.
Proof.
  revert n st. induction budget as [ | budget IH]; intros n st.
  - eexists. split; [ reflexivity | ]. cbn. destruct st; auto.
  - rewrite place_loop_S, (candidate_random _ _ _ _ furniture).
    cbn [random_attempts].
    change (mkItem furniture
              (position (random_candidate random_sample room_width
                           room_length furniture dims (drawn st))) 0 dims)
      with (random_candidate random_sample room_width room_length furniture
              dims (drawn st)).
    destruct (has_collision _ (layouts st)).
    + destruct (IH (S n) (mkState (layouts st) (S (S (drawn st)))
                            (printed st))) as (p & Hp & Hspec).
      exists p. split; [ exact Hp | exact Hspec ].
    + eexists. split; [ reflexivity | ]. cbn. auto.
Qed.

Lemma place_all_random (random_sample : nat → Q) (room_width room_length : Q)
    (selected_furniture : list string) (i : nat) (st : State) :
  place_all random_sample room_width room_length None i selected_furniture st
  = Ok (randomized_search random_sample room_width room_length
          selected_furniture st).
Proof.
  revert i st.
  induction selected_furniture as [ | furniture rest IH]; intros i st;
    [ reflexivity | ].
  rewrite place_all_cons. unfold place_furniture.
  destruct (place_loop_random random_sample room_width room_length
              max_attempts i furniture (get_furniture_dimensions furniture)
              0%nat st) as (p & -> & Hspec).
  cbn [randomized_search].
  destruct (random_attempts random_sample room_width room_length furniture
              (get_furniture_dimensions furniture) (layouts st) max_attempts
              (drawn st)) as [[item | ] d].
  - destruct Hspec as [-> Hs]. cbn [state]. rewrite Hs. apply IH.
  - destruct Hspec as [-> Hs]. cbn [state]. rewrite Hs.
    cbn [layouts drawn printed]. apply IH.
Qed.

(** C4, as the code has it.  Without a model [generate_layouts] returns,
    without raising, exactly the result of the randomized search: every
    attempt of every item draws its position at random, the item goes to
    the first of at most 50 such candidates that overlaps nothing placed
    and is reported otherwise.  When the inference call raises, the call
    raises the same exception and returns no layout. *)
Theorem generate_layouts_model_absent_or_failing
    (random_sample : nat → Q) (room_width room_length room_height : Q)
    (selected_furniture : list string) (drawn0 : nat) :
  generate_layouts None random_sample room_width room_length room_height
    selected_furniture drawn0
  = Ok (randomized_search random_sample room_width room_length
          selected_furniture (mkState [] drawn0 [])) ∧
  (∀ (model : Model) (e : exn),
     model (map (λ _, room_features room_width room_length room_height)
              selected_furniture) = Raise e →
     generate_layouts (Some model) random_sample room_width room_length
       room_height selected_furniture drawn0 = Raise e).
Proof.
  split.
  - unfold generate_layouts. apply place_all_random.
  - intros model e Hfail. unfold generate_layouts. rewrite Hfail.
    reflexivity.
Qed.

Lemma generate_layouts_model_absent_or_failing_witness :
  generate_layouts (Some failing_model) half 10 10 8 ["Bed"] 0
  = Raise (InferenceError "predict").
Proof.
  apply (proj2 (generate_layouts_model_absent_or_failing half 10 10 8
                  ["Bed"] 0%nat) failing_model (InferenceError "predict")).
  reflexivity.
Defined.

(** C4 as stated fails: when the inference call raises, no layout is
    returned; the exception leaves [generate_layouts]. *)
Lemma inference_failure_raises :
  failing_model
    (map (λ _, room_features 10 10 8) ["Bed"]) = Raise (InferenceError "predict") ∧
  ¬ (∃ st,
       generate_layouts (Some failing_model) half 10 10 8 ["Bed"] 0 = Ok st).
Proof.
  split; [ reflexivity | ].
  intros [st Hst]. vm_compute in Hst. discriminate Hst.
Qed.

(** A successful call is a successful run of the placement loop on the
    predictions, if any. *)
Lemma generate_layouts_run (model : option Model) (random_sample : nat → Q)
    (room_width room_length room_height : Q)
    (selected_furniture : list string) (drawn0 : nat) (st : State) :
  generate_layouts model random_sample room_width room_length room_height
    selected_furniture drawn0 = Ok st →
  ∃ predictions,
    place_all random_sample room_width room_length predictions 0
      selected_furniture (mkState [] drawn0 []) = Ok st ∧
    match model with
    | None => predictions = None
    | Some m =>
        ∃ rows,
          m (map (λ _, room_features room_width room_length room_height)
               selected_furniture) = Ok rows ∧
          predictions = Some rows
    end.
Proof.
  unfold generate_layouts. destruct model as [m | ].
  - destruct (m _) as [rows | e]; [ | discriminate ].
    intros H. exists (Some rows). eauto.
  - intros H. exists None. eauto.
Qed.

(** Every furniture of the request is either placed or reported: the
    number of placed items plus the number of warnings is the number of
    requested items. *)
Theorem generate_layouts_placed_or_warned (model : option Model)
    (random_sample : nat → Q) (room_width room_length room_height : Q)
    (selected_furniture : list string) (drawn0 : nat) (st : State) :
  generate_layouts model random_sample room_width room_length room_height
    selected_furniture drawn0 = Ok st →
  (List.length (layouts st) + List.length (printed st)
   = List.length selected_furniture)%nat.
Proof.
  intros Hrun. apply generate_layouts_run in Hrun as (predictions & Hrun & _).
  apply place_all_accounts in Hrun as [Hcount _]. exact Hcount.
Qed.

Lemma generate_layouts_placed_or_warned_witness :
  ∃ st,
    generate_layouts (Some corner_model) half 4 4 8 ["Bed"; "Bed"] 0 = Ok st ∧
    (List.length (layouts st) + List.length (printed st) = 2)%nat.
Proof.
  eexists. split; [ vm_compute; reflexivity | ].
  eapply (λ H, generate_layouts_placed_or_warned (Some corner_model) half
                 4 4 8 ["Bed"; "Bed"] 0%nat _ H).
  vm_compute. reflexivity.
Defined.

(** The call draws at most two random numbers per attempt, so at most 100
    for every requested furniture. *)
Theorem generate_layouts_draws (model : option Model)
    (random_sample : nat → Q) (room_width room_length room_height : Q)
    (selected_furniture : list string) (drawn0 : nat) (st : State) :
  generate_layouts model random_sample room_width room_length room_height
    selected_furniture drawn0 = Ok st →
  (drawn0 <= drawn st
   <= drawn0 + 100 * List.length selected_furniture)%nat.
Proof.
  intros Hrun. apply generate_layouts_run in Hrun as (predictions & Hrun & _).
  apply place_all_accounts in Hrun as [_ Hdrawn].
  unfold max_attempts in Hdrawn. simpl in Hdrawn. lia.
Qed.

Lemma generate_layouts_draws_witness :
  ∃ st,
    generate_layouts None half 10 10 8 ["Sofa"; "Sofa"] 7 = Ok st ∧
    (7 <= drawn st <= 207)%nat.
Proof.
  eexists. split; [ vm_compute; reflexivity | ].
  eapply (λ H, generate_layouts_draws None half 10 10 8 ["Sofa"; "Sofa"]
                 7%nat _ H).
  vm_compute. reflexivity.
Defined.

(** The placed items follow the order of the request: their types form a
    subsequence of it, and every item carries the catalogue dimensions of
    its type and rotation 0. *)
Theorem generate_layouts_keeps_order (model : option Model)
    (random_sample : nat → Q) (room_width room_length room_height : Q)
    (selected_furniture : list string) (drawn0 : nat) (st : State) :
  generate_layouts model random_sample room_width room_length room_height
    selected_furniture drawn0 = Ok st →
  (type <$> layouts st) `sublist_of` selected_furniture ∧
  Forall (λ item, dimensions item = get_furniture_dimensions (type item) ∧
                  rotation item = 0) (layouts st).
Proof.
  intros Hrun. apply generate_layouts_run in Hrun as (predictions & Hrun & _).
  split.
  - apply place_all_types in Hrun as (new & Hnew & Hsub).
    rewrite Hnew. exact Hsub.
  - eapply (place_all_invariant random_sample room_width room_length
              predictions
              (Forall (λ item,
                 dimensions item = get_furniture_dimensions (type item) ∧
                 rotation item = 0))); [ | | exact Hrun ].
    + intros l i furniture n d d' pos Hl _ _.
      apply Forall_app. split; [ exact Hl | ].
      constructor; [ split; reflexivity | constructor ].
    + constructor.
Qed.

Lemma generate_layouts_keeps_order_witness :
  ∃ st,
    generate_layouts None half 10 10 8 ["Sofa"; "Sofa"; "Sink"] 0 = Ok st ∧
    (type <$> layouts st) `sublist_of` ["Sofa"; "Sofa"; "Sink"].
Proof.
  eexists. split; [ vm_compute; reflexivity | ].
  eapply (λ H, proj1 (generate_layouts_keeps_order None half 10 10 8
                        ["Sofa"; "Sofa"; "Sink"] 0%nat _ H)).
  vm_compute. reflexivity.
Defined.

Lemma place_all_grows (random_sample : nat → Q) (room_width room_length : Q)
    (predictions : option (list (list Q))) (selected : list string)
    (i : nat) (st st' : State) :
  place_all random_sample room_width room_length predictions i selected st
    = Ok st' →
  layouts st `prefix_of` layouts st'.
Proof.
  intros Hrun.
  apply place_all_types in Hrun as (new & -> & _). apply prefix_app_r.
  reflexivity.
Qed.

(** The first furniture of the request is always placed, whatever its
    size, and stays the first item of the layout. *)
Theorem generate_layouts_first_placed (model : option Model)
    (random_sample : nat → Q) (room_width room_length room_height : Q)
    (furniture : string) (rest : list string) (drawn0 : nat) (st : State) :
  generate_layouts model random_sample room_width room_length room_height
    (furniture :: rest) drawn0 = Ok st →
  ∃ pos others,
    layouts st =
    mkItem furniture pos 0 (get_furniture_dimensions furniture) :: others.
Proof.
  intros Hrun. apply generate_layouts_run in Hrun as (predictions & Hrun & _).
  rewrite place_all_cons in Hrun.
  destruct (place_furniture random_sample room_width room_length predictions
              0 furniture (mkState [] drawn0 [])) as [p | e] eqn:Hbody;
    [ | discriminate ].
  destruct (place_furniture_first random_sample room_width room_length
              predictions 0%nat furniture (mkState [] drawn0 []) p eq_refl
              Hbody) as [Hp _].
  apply place_furniture_exit in Hbody as (q & Hexit & _ & Hpq & Hlay & _).
  apply place_all_grows in Hrun. rewrite Hlay in Hrun.
  destruct Hexit as [pos d d' Hq Hn Hc Hcol Hl Hpr | Hq Hn Hl Hpr];
    [ | congruence ].
  rewrite Hl in Hrun. destruct Hrun as [others ->].
  exists pos, others. reflexivity.
Qed.

Lemma generate_layouts_first_placed_witness :
  ∃ st pos others,
    generate_layouts None half 4 4 8 ["Bed"; "Sink"] 0 = Ok st ∧
    layouts st = mkItem "Bed" pos 0 (get_furniture_dimensions "Bed") :: others.
Proof.
  destruct (generate_layouts None half 4 4 8 ["Bed"; "Sink"] 0) as [st | e]
    eqn:Hrun; [ | vm_compute in Hrun; discriminate Hrun ].
  destruct (generate_layouts_first_placed None half 4 4 8 "Bed" ["Sink"]
              0%nat st Hrun) as (pos & others & H).
  exists st, pos, others. split; [ reflexivity | exact H ].
Defined.

(** The placement loop raises nothing but [IndexError], and it does raise
    it when the model returns fewer rows than there are requested
    items. *)
Theorem generate_layouts_missing_row (model : Model)
    (random_sample : nat → Q) (room_width room_length room_height : Q)
    (selected_furniture : list string) (drawn0 : nat)
    (rows : list (list Q)) :
  model (map (λ _, room_features room_width room_length room_height)
           selected_furniture) = Ok rows →
  (List.length rows < List.length selected_furniture)%nat →
  generate_layouts (Some model) random_sample room_width room_length
    room_height selected_furniture drawn0 = Raise IndexError.
Proof.
  intros Hrows Hshort. unfold generate_layouts. rewrite Hrows.
  apply (place_all_missing_row random_sample room_width room_length
           (Some rows) selected_furniture 0%nat (List.length rows) _ rows
           eq_refl).
  - apply lookup_ge_None. lia.
  - lia.
Qed.

Lemma generate_layouts_missing_row_witness :
  generate_layouts (Some (λ _, Ok [[0; 0]])) half 10 10 8 ["Sink"; "Sink"] 0
  = Raise IndexError.
Proof.
  apply (generate_layouts_missing_row (λ _, Ok [[0; 0]]) half 10 10 8
           ["Sink"; "Sink"] 0%nat [[0; 0]] eq_refl).
  simpl. lia.
Defined.

Lemma clamp_inside (a hi : Q) :
  0 <= a → a <= hi → py_max 0 (py_min a hi) == a.
Proof.
  intros H0 Hhi. unfold py_max, py_min.
  destruct (ltb hi a) eqn:E1.
  - apply ltb_lt in E1. lra.
  - destruct (ltb 0 a) eqn:E2; [ reflexivity | ].
    apply ltb_ge in E2. lra.
Qed.

(** With a model, the first furniture of the request is placed at its
    prediction, scaled to the room and clamped; a prediction that leaves
    the footprint inside the room is taken as it is. *)
Theorem generate_layouts_first_hint (model : Model)
    (random_sample : nat → Q) (room_width room_length room_height : Q)
    (furniture : string) (rest : list string) (drawn0 : nat) (st : State)
    (rows : list (list Q)) (row : list Q) (p0 p1 : Q) :
  model (map (λ _, room_features room_width room_length room_height)
           (furniture :: rest)) = Ok rows →
  rows !! 0%nat = Some row → row !! 0%nat = Some p0 → row !! 1%nat = Some p1 →
  generate_layouts (Some model) random_sample room_width room_length
    room_height (furniture :: rest) drawn0 = Ok st →
  let dims := get_furniture_dimensions furniture in
  ∃ item others,
    layouts st = item :: others ∧
    type item = furniture ∧
    x (position item)
      = py_max 0 (py_min (p0 * room_width) (room_width - width dims)) ∧
    y (position item)
      = py_max 0 (py_min (p1 * room_length) (room_length - depth dims)) ∧
    (0 <= p0 * room_width → p0 * room_width <= room_width - width dims →
     x (position item) == p0 * room_width) ∧
    (0 <= p1 * room_length → p1 * room_length <= room_length - depth dims →
     y (position item) == p1 * room_length).
Proof.
  intros Hrows Hrow H0 H1. unfold generate_layouts. rewrite Hrows.
  rewrite place_all_cons. unfold place_furniture.
  change max_attempts with (S 49). rewrite place_loop_S.
  unfold candidate. rewrite Hrow, H0, H1.
  cbn [layouts has_collision placed state]. intros Hrun.
  apply place_all_grows in Hrun. cbn [layouts] in Hrun.
  destruct Hrun as [others ->]. cbv zeta.
  eexists _, others. split; [ reflexivity | ].
  cbn [type position x y]. repeat split; try reflexivity.
  - apply clamp_inside.
  - apply clamp_inside.
Qed.

Lemma generate_layouts_first_hint_witness :
  ∃ st item others,
    generate_layouts (Some corner_model) half 10 10 8 ["Sofa"; "Sink"] 0
      = Ok st ∧
    layouts st = item :: others ∧
    x (position item) == 0 * 10.
Proof.
  destruct (generate_layouts (Some corner_model) half 10 10 8
              ["Sofa"; "Sink"] 0) as [st | e] eqn:Hrun;
    [ | vm_compute in Hrun; discriminate Hrun ].
  destruct (generate_layouts_first_hint corner_model half 10 10 8 "Sofa"
              ["Sink"] 0%nat st [[0; 0]; [0; 0]] [0; 0] 0 0
              eq_refl eq_refl eq_refl eq_refl Hrun)
    as (item & others & Hl & _ & _ & _ & Hx & _).
  exists st, item, others. split; [ reflexivity | ].
  split; [ exact Hl | ]. apply Hx; vm_compute; discriminate.
Defined.

(** ** Sizes in the catalogue *)

(** Whatever the name, the three dimensions that
    [get_furniture_dimensions] returns are positive. *)
Theorem get_furniture_dimensions_positive (furniture_type : string) :
  0 < width (get_furniture_dimensions furniture_type) ∧
  0 < depth (get_furniture_dimensions furniture_type) ∧
  0 < height (get_furniture_dimensions furniture_type).
Proof.
  unfold get_furniture_dimensions, catalog.
  repeat (rewrite lookup_insert; case_decide;
          [ cbn; repeat split; reflexivity | ]).
  rewrite lookup_empty. cbn. repeat split; reflexivity.
Qed.

(** * Further properties of the 3D view *)

Lemma scale_and_position_min_corner_witness :
  ∃ scaled_mesh h' lo' hi',
    scale_and_position 0%nat right_item [tetrahedron] = Ok (scaled_mesh, h') ∧
    bounds (deref h' scaled_mesh) = Some (lo', hi') ∧
    veq lo' (2 * 1 + 2, 2 * 1 + 0, 2 * 1 + 0).
Proof.
  destruct (scale_and_position 0%nat right_item [tetrahedron])
    as [[scaled_mesh h'] | e] eqn:Hrun;
    [ | vm_compute in Hrun; discriminate Hrun ].
  destruct (scale_and_position_min_corner 0%nat right_item [tetrahedron]
              scaled_mesh h' tetrahedron (1, 1, 1) (2, 2, 2) 2
              eq_refl eq_refl eq_refl) as (lo' & hi' & Hb & Hlo).
  - vm_compute. discriminate.
  - exact Hrun.
  - exists scaled_mesh, h', lo', hi'. split; [ reflexivity | ].
    split; [ exact Hb | exact Hlo ].
Defined.

Lemma scale_and_position_result (mesh : loc) (furniture : Item) (h : heap)
    (scaled_mesh : loc) (h' : heap) :
  scale_and_position mesh furniture h = Ok (scaled_mesh, h') →
  ∃ s,
    calculate_scale_factor (deref h mesh) (dimensions furniture) = Ok s ∧
    scaled_mesh = List.length h ∧
    h' = h ++ [transformed
                 (translation_matrix
                    (x (position furniture), y (position furniture), 0))
                 (transformed (scale_matrix s) (deref h mesh))].
Proof.
  unfold scale_and_position, copy, alloc, apply_translation, apply_transform.
  destruct (calculate_scale_factor (deref h mesh) (dimensions furniture))
    as [s | e]; [ | discriminate ].
  intros H. injection H as <- <-. exists s.
  split; [ reflexivity | ]. split; [ reflexivity | ].
  rewrite <- (Nat.add_0_r (List.length h)), !alter_app_r. reflexivity.
Qed.

(** Without any mesh file the 3D view draws, for every item, the box of
    its dimensions standing at its position on the floor; nothing is
    raised and no mesh object is created. *)
Theorem visualize_layouts_3d_boxes (load_3d_model : string → option Mesh)
    (furniture_layouts : list Item) (h : heap) :
  (∀ item, item ∈ furniture_layouts → load_3d_model (type item) = None) →
  visualize_layouts_3d load_3d_model furniture_layouts h
  = Ok (box_of <$> furniture_layouts, h).
Proof.
  induction furniture_layouts as [ | furniture rest IH]; intros Hnone.
  - reflexivity.
  - cbn [visualize_layouts_3d].
    rewrite (Hnone furniture) by apply list_elem_of_here.
    rewrite IH by (intros item Hin; apply Hnone, list_elem_of_further, Hin).
    reflexivity.
Qed.

Lemma visualize_layouts_3d_boxes_witness :
  visualize_layouts_3d (λ _, None) [left_item; right_item] []
  = Ok ([box_of left_item; box_of right_item], []).
Proof.
  apply (visualize_layouts_3d_boxes (λ _, None) [left_item; right_item] []).
  intros item _. reflexivity.
Defined.

Lemma calculate_scale_factor_raises (mesh : Mesh) (target_dims : Dimensions)
    (e : exn) :
  calculate_scale_factor mesh target_dims = Raise e → e = TypeError.
Proof.
  unfold calculate_scale_factor. destruct (extents mesh); congruence.
Qed.

Lemma scale_and_position_raises (mesh : loc) (furniture : Item) (h : heap)
    (e : exn) :
  scale_and_position mesh furniture h = Raise e → e = TypeError.
Proof.
  unfold scale_and_position.
  destruct (calculate_scale_factor _ _) as [s | e'] eqn:Hs.
  - destruct (copy mesh h). discriminate.
  - intros H. injection H as <-. eapply calculate_scale_factor_raises.
    exact Hs.
Qed.

Lemma visualize_layouts_3d_raises (load_3d_model : string → option Mesh)
    (furniture_layouts : list Item) (h : heap) (e : exn) :
  visualize_layouts_3d load_3d_model furniture_layouts h = Raise e →
  e = TypeError.
Proof.
  revert h. induction furniture_layouts as [ | furniture rest IH]; intros h;
    [ discriminate | ].
  cbn [visualize_layouts_3d].
  destruct (load_3d_model (type furniture)) as [loaded | ].
  - destruct (alloc loaded h) as [mesh h1].
    destruct (scale_and_position mesh furniture h1) as [[sm h2] | e'] eqn:Hs.
    + destruct (visualize_layouts_3d load_3d_model rest h2)
        as [[ds h3] | e''] eqn:Hrest; [ discriminate | ].
      intros H. injection H as <-. eapply IH. exact Hrest.
    + intros H. injection H as <-. eapply scale_and_position_raises.
      exact Hs.
  - destruct (visualize_layouts_3d load_3d_model rest h)
      as [[ds h3] | e''] eqn:Hrest; [ discriminate | ].
    intros H. injection H as <-. eapply IH. exact Hrest.
Qed.

Lemma scale_and_position_empty (h : heap) (loaded : Mesh) (furniture : Item) :
  in_mesh loaded = [] →
  scale_and_position (List.length h) furniture (h ++ [loaded])
  = Raise TypeError.
Proof.
  intros Hempty. unfold scale_and_position.
  assert (deref (h ++ [loaded]) (List.length h) = loaded) as ->
    by (unfold deref; rewrite list_lookup_middle; reflexivity).
  unfold calculate_scale_factor, extents, bounds. rewrite Hempty.
  reflexivity.
Qed.

(** A mesh in which no face refers to a vertex has no extents: as soon as
    the asset of some item is such a mesh, the 3D view raises a
    [TypeError]. *)
Theorem visualize_layouts_3d_empty_mesh (load_3d_model : string → option Mesh)
    (furniture_layouts : list Item) (h : heap) (item : Item) (loaded : Mesh) :
  item ∈ furniture_layouts →
  load_3d_model (type item) = Some loaded →
  in_mesh loaded = [] →
  visualize_layouts_3d load_3d_model furniture_layouts h = Raise TypeError.
Proof.
  intros Hin Hload Hempty.
  destruct (visualize_layouts_3d load_3d_model furniture_layouts h)
    as [[ds h'] | e] eqn:Hrun;
    [ | f_equal; eapply visualize_layouts_3d_raises; exact Hrun ].
  exfalso. revert h ds h' Hrun.
  induction furniture_layouts as [ | furniture rest IH]; intros h ds h' Hrun.
  - inversion Hin.
  - cbn [visualize_layouts_3d] in Hrun.
    apply elem_of_cons in Hin as [<- | Hin].
    + rewrite Hload in Hrun. unfold alloc in Hrun.
      rewrite (scale_and_position_empty h loaded item Hempty) in Hrun.
      discriminate Hrun.
    + destruct (load_3d_model (type furniture)) as [m | ].
      * destruct (alloc m h) as [mesh h1].
        destruct (scale_and_position mesh furniture h1) as [[sm h2] | e'];
          [ | discriminate ].
        destruct (visualize_layouts_3d load_3d_model rest h2)
          as [[ds2 h3] | e''] eqn:Hrest; [ | discriminate ].
        exact (IH Hin _ _ _ Hrest).
      * destruct (visualize_layouts_3d load_3d_model rest h)
          as [[ds2 h3] | e''] eqn:Hrest; [ | discriminate ].
        exact (IH Hin _ _ _ Hrest).
Qed.

Lemma visualize_layouts_3d_empty_mesh_witness :
  visualize_layouts_3d (λ _, Some empty_mesh) [left_item] []
  = Raise TypeError.
Proof.
  apply (visualize_layouts_3d_empty_mesh (λ _, Some empty_mesh) [left_item]
           [] left_item empty_mesh).
  - apply list_elem_of_here.
  - reflexivity.
  - reflexivity.
Defined.

Lemma scale_and_position_extends (mesh : loc) (furniture : Item) (h : heap)
    (scaled_mesh : loc) (h' : heap) :
  scale_and_position mesh furniture h = Ok (scaled_mesh, h') →
  h `prefix_of` h' ∧ List.length h' = S (List.length h).
Proof.
  intros Hrun. apply scale_and_position_result in Hrun as (s & _ & _ & ->).
  split; [ apply prefix_app_r; reflexivity | ].
  rewrite length_app. simpl. lia.
Qed.

(** The 3D view only ever adds mesh objects to the store: every mesh that
    existed before the call is unchanged after it. *)
Theorem visualize_layouts_3d_store (load_3d_model : string → option Mesh)
    (furniture_layouts : list Item) (h : heap) (drawables : list Drawable)
    (h' : heap) :
  visualize_layouts_3d load_3d_model furniture_layouts h
    = Ok (drawables, h') →
  ∀ l m, h !! l = Some m → h' !! l = Some m.
Proof.
  intros Hrun.
  cut (h `prefix_of` h').
  { intros Hpre l m Hl.
    rewrite <- (prefix_lookup_lt h h' l); [ exact Hl | | exact Hpre ].
    eapply lookup_lt_Some. exact Hl. }
  revert h drawables h' Hrun.
  induction furniture_layouts as [ | furniture rest IH];
    intros h drawables h' Hrun.
  - injection Hrun as <- <-. reflexivity.
  - cbn [visualize_layouts_3d] in Hrun.
    destruct (load_3d_model (type furniture)) as [m | ].
    + unfold alloc in Hrun.
      destruct (scale_and_position (List.length h) furniture (h ++ [m]))
        as [[sm h2] | e'] eqn:Hs; [ | discriminate ].
      destruct (visualize_layouts_3d load_3d_model rest h2)
        as [[ds2 h3] | e''] eqn:Hrest; [ | discriminate ].
      injection Hrun as <- <-.
      apply IH in Hrest. apply scale_and_position_extends in Hs as [Hpre2 _].
      etransitivity; [ | exact Hrest ].
      etransitivity; [ | exact Hpre2 ]. apply prefix_app_r. reflexivity.
    + destruct (visualize_layouts_3d load_3d_model rest h)
        as [[ds2 h3] | e''] eqn:Hrest; [ | discriminate ].
      injection Hrun as <- <-. eapply IH. exact Hrest.
Qed.

Lemma visualize_layouts_3d_store_witness :
  ∃ drawables h',
    visualize_layouts_3d tetrahedron_assets [right_item] [tetrahedron]
      = Ok (drawables, h') ∧
    h' !! 0%nat = Some tetrahedron.
Proof.
  destruct (visualize_layouts_3d tetrahedron_assets [right_item]
              [tetrahedron]) as [[drawables h'] | e] eqn:Hrun;
    [ | vm_compute in Hrun; discriminate Hrun ].
  exists drawables, h'. split; [ reflexivity | ].
  apply (visualize_layouts_3d_store tetrahedron_assets [right_item]
           [tetrahedron] drawables h' Hrun).
  reflexivity.
Defined.

(** * The 2D view *)

Section view_2d.
Variable script_dir : string.
Variable os_path_join : string → string → string.
Variable os_path_exists : string → bool.
Variable Image_open_resize : string → Z → Z → result unit.

Local Abbreviation draw1 :=
  (draw_furniture script_dir os_path_join os_path_exists Image_open_resize).
Local Abbreviation draw :=
  (draw_all script_dir os_path_join os_path_exists Image_open_resize).
Local Abbreviation view :=
  (visualize_layouts script_dir os_path_join os_path_exists
     Image_open_resize).

(** What is drawn for one item: at most one shape, which covers the
    footprint of the item, and then its label. *)
Lemma draw_furniture_shape (furniture : Item) (arts : list Artist) :
  draw1 furniture = Ok arts →
  ∃ shape,
    arts = shape ++ [label_of furniture] ∧
    (shape = [] ∨ ∃ a, shape = [a] ∧ is_text a = false ∧ covers a furniture).
Proof.
  unfold draw_furniture.
  destruct (String.eqb (type furniture) "Door"
            || String.eqb (type furniture) "Window").
  - intros H. injection H as <-. eexists [_]. split; [ reflexivity | ].
    right. eexists. split; [ reflexivity | ]. simpl. auto.
  - destruct (ASSET_MAPPING !! type furniture) as [asset | ].
    + destruct (os_path_exists (os_path_join script_dir asset)).
      * destruct (Image_open_resize _ _ _) as [[] | e]; [ | discriminate ].
        intros H. injection H as <-. eexists [_]. split; [ reflexivity | ].
        right. eexists. split; [ reflexivity | ]. simpl.
        repeat split; ring.
      * intros H. injection H as <-. eexists [_]. split; [ reflexivity | ].
        right. eexists. split; [ reflexivity | ]. simpl. auto.
    + intros H. injection H as <-. exists []. split; [ reflexivity | ].
      left. reflexivity.
Qed.

Lemma draw_all_cons (furniture : Item) (rest : list Item) :
  draw (furniture :: rest) =
  match draw1 furniture with
  | Raise e => Raise e
  | Ok arts =>
      match draw rest with
      | Raise e => Raise e
      | Ok more => Ok (arts ++ more)
      end
  end.
Proof. reflexivity. Qed.

Lemma draw_all_spec (furniture_layouts : list Item) (arts : list Artist) :
  draw furniture_layouts = Ok arts →
  filter (λ a, is_text a = true) arts = label_of <$> furniture_layouts ∧
  (∀ a, a ∈ arts → is_text a = false →
        ∃ item, item ∈ furniture_layouts ∧ covers a item).
Proof.
  revert arts.
  induction furniture_layouts as [ | furniture rest IH]; intros arts.
  - intros H. injection H as <-. split; [ reflexivity | ].
    intros a Ha. inversion Ha.
  - rewrite draw_all_cons.
    destruct (draw1 furniture) as [first | e] eqn:Hfirst; [ | discriminate ].
    destruct (draw rest) as [more | e]; [ | discriminate ].
    intros H. injection H as <-.
    destruct (IH more eq_refl) as [IHtext IHshape].
    apply draw_furniture_shape in Hfirst as (shape & -> & Hshape).
    split.
    + rewrite !filter_app, IHtext.
      destruct Hshape as [-> | (a & -> & Ha & _)].
      * reflexivity.
      * rewrite filter_cons. destruct (decide (is_text a = true)) as [E | _];
          [ congruence | ]. reflexivity.
    + intros a Ha Htext.
      rewrite !elem_of_app in Ha. destruct Ha as [[Ha | Ha] | Ha].
      * destruct Hshape as [-> | (a0 & -> & _ & Hcov)]; [ inversion Ha | ].
        apply list_elem_of_singleton in Ha as ->.
        exists furniture. split; [ apply list_elem_of_here | exact Hcov ].
      * apply list_elem_of_singleton in Ha as ->. discriminate Htext.
      * destruct (IHshape a Ha Htext) as (item & Hin & Hcov).
        exists item. split; [ apply list_elem_of_further, Hin | exact Hcov ].
Qed.

(** The 2D view writes exactly one label per item, in the order of the
    layout and at the centre of the item's footprint. *)
Theorem visualize_layouts_labels (room_width room_length : Q)
    (furniture_layouts : list Item) (arts : list Artist) :
  view room_width room_length furniture_layouts = Ok arts →
  filter (λ a, is_text a = true) arts = label_of <$> furniture_layouts.
Proof.
  unfold visualize_layouts.
  destruct (draw furniture_layouts) as [drawn_arts | e] eqn:Hd;
    [ | discriminate ].
  intros H. injection H as <-.
  rewrite filter_cons. destruct (decide _) as [E | _]; [ discriminate E | ].
  apply draw_all_spec. exact Hd.
Qed.

(** After the outline of the room, every shape of the 2D view, rectangle
    or picture, covers exactly the footprint of an item of the layout. *)
Theorem visualize_layouts_shapes (room_width room_length : Q)
    (furniture_layouts : list Item) (arts : list Artist) :
  view room_width room_length furniture_layouts = Ok arts →
  ∃ furniture_arts,
    arts = Rectangle (0, 0) room_width room_length false "black" None
           :: furniture_arts ∧
    ∀ a, a ∈ furniture_arts → is_text a = false →
         ∃ item, item ∈ furniture_layouts ∧ covers a item.
Proof.
  unfold visualize_layouts.
  destruct (draw furniture_layouts) as [drawn_arts | e] eqn:Hd;
    [ | discriminate ].
  intros H. injection H as <-. exists drawn_arts.
  split; [ reflexivity | ]. apply draw_all_spec. exact Hd.
Qed.

Lemma no_asset_not_opening (furniture_type : string) :
  ASSET_MAPPING !! furniture_type = None →
  String.eqb furniture_type "Door" || String.eqb furniture_type "Window"
  = false.
Proof.
  intros Hnone. apply orb_false_iff. split.
  - destruct (String.eqb_spec furniture_type "Door") as [-> | ];
      [ vm_compute in Hnone; discriminate Hnone | reflexivity ].
  - destruct (String.eqb_spec furniture_type "Window") as [-> | ];
      [ vm_compute in Hnone; discriminate Hnone | reflexivity ].
Qed.

(** An item whose type has no entry in [ASSET_MAPPING], such as one placed
    under an unknown name with the default dimensions, is never drawn: the
    2D view shows its label only, whatever files exist, and raises
    nothing. *)
Theorem visualize_layouts_without_asset (room_width room_length : Q)
    (furniture_layouts : list Item) :
  (∀ item, item ∈ furniture_layouts →
           ASSET_MAPPING !! type item = None) →
  view room_width room_length furniture_layouts
  = Ok (Rectangle (0, 0) room_width room_length false "black" None
        :: (label_of <$> furniture_layouts)).
Proof.
  intros Hnone. unfold visualize_layouts.
  assert (Hdraw : draw furniture_layouts = Ok (label_of <$> furniture_layouts)).
  { induction furniture_layouts as [ | furniture rest IH];
      [ reflexivity | ].
    rewrite draw_all_cons, IH
      by (intros item Hin; apply Hnone, list_elem_of_further, Hin).
    unfold draw_furniture.
    rewrite (no_asset_not_opening (type furniture)),
      (Hnone furniture) by (try apply Hnone; apply list_elem_of_here).
    reflexivity. }
  rewrite Hdraw. reflexivity.
Qed.
End view_2d.

Lemma visualize_layouts_labels_witness :
  ∃ arts,
    visualize_layouts "" (λ _ b, b) (λ _, false) (λ _ _ _, Ok ()) 10 10
      [left_item; right_item] = Ok arts ∧
    filter (λ a, is_text a = true) arts
    = [label_of left_item; label_of right_item].
Proof.
  eexists. split; [ reflexivity | ].
  apply (visualize_layouts_labels "" (λ _ b, b) (λ _, false)
           (λ _ _ _, Ok ()) 10 10 [left_item; right_item]).
  reflexivity.
Defined.

Lemma visualize_layouts_shapes_witness :
  ∃ furniture_arts,
    visualize_layouts "" (λ _ b, b) (λ _, true) (λ _ _ _, Ok ()) 10 10
      [left_item] = Ok (Rectangle (0, 0) 10 10 false "black" None
                        :: furniture_arts).
Proof.
  destruct (visualize_layouts_shapes "" (λ _ b, b) (λ _, true)
              (λ _ _ _, Ok ()) 10 10 [left_item] _ eq_refl)
    as (furniture_arts & Harts & _).
  exists furniture_arts. rewrite <- Harts. reflexivity.
Defined.

Lemma visualize_layouts_without_asset_witness :
  visualize_layouts "" (λ _ b, b) (λ _, true) (λ _ _ _, Raise TypeError)
    10 10 [mkItem "Lamp" (mkPosition 1 1) 0 (mkDimensions 2 2 2)]
  = Ok [Rectangle (0, 0) 10 10 false "black" None;
        label_of (mkItem "Lamp" (mkPosition 1 1) 0 (mkDimensions 2 2 2))].
Proof.
  apply (visualize_layouts_without_asset "" (λ _ b, b) (λ _, true)
           (λ _ _ _, Raise TypeError) 10 10
           [mkItem "Lamp" (mkPosition 1 1) 0 (mkDimensions 2 2 2)]).
  intros item Hin. apply list_elem_of_singleton in Hin as ->.
  vm_compute. reflexivity.
Defined.

(** * Model files *)

Lemma lower_char_fixed (c : ascii) : lower_char (lower_char c) = lower_char c.
Proof. destruct c as [[] [] [] [] [] [] [] []]; reflexivity. Qed.

Lemma lower_char_not_upper (c : ascii) :
  (65 <=? nat_of_ascii (lower_char c))%nat
  && (nat_of_ascii (lower_char c) <=? 90)%nat = false.
Proof. destruct c as [[] [] [] [] [] [] [] []]; reflexivity. Qed.

Lemma lower_underscore : lower_char "_" = "_"%char.
Proof. reflexivity. Qed.

(** The characters of a string. *)
Lemma model_name_chars (s : string) (c : ascii) :
  c ∈ String.list_ascii_of_string (model_name s) →
  c ≠ " "%char ∧ lower_char c = c.
Proof.
  unfold model_name. induction s as [ | a s IH]; simpl.
  - intros H. inversion H.
  - intros H. apply elem_of_cons in H as [-> | H]; [ | exact (IH H) ].
    destruct (Ascii.eqb (lower_char a) " ") eqn:E.
    + split; [ discriminate | reflexivity ].
    + split.
      * intros Heq. rewrite Heq in E. discriminate E.
      * apply lower_char_fixed.
Qed.

(** The file name derived from a furniture type contains no space and no
    upper-case ASCII letter, and deriving it again changes nothing. *)
Theorem model_name_normal (furniture_type : string) :
  (∀ c, c ∈ String.list_ascii_of_string (model_name furniture_type) →
        c ≠ " "%char ∧
        (65 <=? nat_of_ascii c)%nat && (nat_of_ascii c <=? 90)%nat = false) ∧
  model_name (model_name furniture_type) = model_name furniture_type.
Proof.
  split.
  - intros c Hc. apply model_name_chars in Hc as [Hsp Hlow].
    split; [ exact Hsp | ]. rewrite <- Hlow. apply lower_char_not_upper.
  - unfold model_name. induction furniture_type as [ | a s IH]; simpl;
      [ reflexivity | ].
    rewrite IH. f_equal.
    destruct (Ascii.eqb (lower_char a) " ") eqn:E; [ reflexivity | ].
    rewrite lower_char_fixed, E. reflexivity.
Qed.

(** The catalogue and the list of files that [verify_3d_models] checks
    name the same fourteen models: every catalogued type is looked up
    under a name that is checked, and every checked name is the name of a
    catalogued type. *)
Theorem model_names_verified :
  (∀ furniture_type, furniture_type ∈ catalog_names →
     model_name furniture_type ∈ required_models) ∧
  (∀ name, name ∈ required_models →
     ∃ furniture_type,
       furniture_type ∈ catalog_names ∧ model_name furniture_type = name).
Proof.
  assert (H : model_name <$> catalog_names = required_models)
    by (vm_compute; reflexivity).
  rewrite <- H. split.
  - intros furniture_type Hin. apply list_elem_of_fmap. eauto.
  - intros name Hin. apply list_elem_of_fmap in Hin as (ft & -> & Hft). eauto.
Qed.

Lemma model_names_verified_witness :
  model_name "TV Stand" ∈ required_models.
Proof.
  apply (proj1 model_names_verified "TV Stand").
  unfold catalog_names. do 2 apply list_elem_of_further.
  apply list_elem_of_here.
Defined.

Section model_files.
Variable script_dir : string.
Variable os_path_join : string → string → string.
Variable os_path_exists : string → bool.

(** [get_safe_model_path] returns the first of the paths [base.dae],
    [base.stl], [base.obj] that exists, so a Collada file hides the other
    two, and [None] exactly when none of the three exists. *)
Theorem get_safe_model_path_first (furniture_type : string) :
  let base_path :=
    os_path_join (os_path_join (os_path_join script_dir "assets") "3d_models")
      (model_name furniture_type) in
  let dae := (base_path ++ ".dae")%string in
  let stl := (base_path ++ ".stl")%string in
  let obj := (base_path ++ ".obj")%string in
  let found :=
    get_safe_model_path script_dir os_path_join os_path_exists furniture_type
  in
  (os_path_exists dae = true → found = Some dae) ∧
  (os_path_exists dae = false → os_path_exists stl = true →
   found = Some stl) ∧
  (os_path_exists dae = false → os_path_exists stl = false →
   os_path_exists obj = true → found = Some obj) ∧
  (found = None ↔
   os_path_exists dae = false ∧ os_path_exists stl = false ∧
   os_path_exists obj = false) ∧
  (∀ path, found = Some path → os_path_exists path = true).
Proof.
  cbv zeta. unfold get_safe_model_path, supported_formats.
  cbn [first_existing].
  set (base := os_path_join _ _).
  destruct (os_path_exists (base ++ ".dae")%string) eqn:E1;
    [ | destruct (os_path_exists (base ++ ".stl")%string) eqn:E2;
        [ | destruct (os_path_exists (base ++ ".obj")%string) eqn:E3 ] ];
    repeat split; try congruence; try tauto;
    try (intros path H; injection H as <-; assumption);
    try (intros (? & ? & ?); congruence).
Qed.
End model_files.

Lemma get_safe_model_path_first_witness :
  get_safe_model_path "/app" (λ a b, (a ++ "/" ++ b)%string)
    (λ p, negb (String.eqb p "/app/assets/3d_models/tv_stand.dae"))
    "TV Stand"
  = Some "/app/assets/3d_models/tv_stand.stl".
Proof.
  apply (proj1 (proj2 (get_safe_model_path_first "/app"
                         (λ a b, (a ++ "/" ++ b)%string)
                         (λ p, negb (String.eqb p
                                  "/app/assets/3d_models/tv_stand.dae"))
                         "TV Stand"))); reflexivity.
Defined.

Lemma model_name_normal_witness :
  model_name (model_name "Coffee Table") = model_name "Coffee Table" ∧
  "_"%char ≠ " "%char.
Proof.
  split; [ apply (proj2 (model_name_normal "Coffee Table")) | ].
  apply (proj1 (model_name_normal "Coffee Table") "_"%char).
  vm_compute. do 6 apply list_elem_of_further. apply list_elem_of_here.
Defined.

(** * Merging the primitives of a Collada file *)

Lemma dae_arrays_flat (geometries : list (list Primitive)) (acc : Arrays) :
  fold_left (λ acc geometry, fold_left add_primitive geometry acc)
    geometries acc
  = fold_left add_primitive (concat geometries) acc.
Proof.
  revert acc. induction geometries as [ | g gs IH]; intros acc; simpl;
    [ reflexivity | ].
  rewrite IH, fold_left_app. reflexivity.
Qed.

(** The accumulators only grow, and the offset stays the number of
    vertices collected. *)
Lemma add_primitives_grow (primitives : list Primitive) (acc : Arrays) :
  vertex_offset acc = List.length (all_vertices acc) →
  let acc' := fold_left add_primitive primitives acc in
  vertex_offset acc' = List.length (all_vertices acc') ∧
  all_vertices acc `prefix_of` all_vertices acc' ∧
  all_faces acc `prefix_of` all_faces acc'.
Proof.
  revert acc. induction primitives as [ | p ps IH]; intros acc Hoff; simpl.
  - split; [ exact Hoff | split; reflexivity ].
  - destruct (IH (add_primitive acc p)) as (H1 & H2 & H3).
    { simpl. rewrite length_app. lia. }
    split; [ exact H1 | ]. split.
    + etransitivity; [ | exact H2 ]. simpl. apply prefix_app_r. reflexivity.
    + etransitivity; [ | exact H3 ]. simpl. apply prefix_app_r. reflexivity.
Qed.

Lemma add_primitives_vertices (primitives : list Primitive) (acc : Arrays) :
  all_vertices (fold_left add_primitive primitives acc)
  = all_vertices acc ++ concat (vertex <$> primitives).
Proof.
  revert acc. induction primitives as [ | p ps IH]; intros acc; simpl.
  - rewrite app_nil_r. reflexivity.
  - rewrite IH. simpl. rewrite <- app_assoc. reflexivity.
Qed.

(** The merged arrays keep every primitive intact: its vertices sit in the
    merged vertex array from the offset of the primitive on, and each of
    its faces is in the merged face array with its indices moved by that
    offset. *)
Theorem dae_arrays_keeps_primitive (geometries : list (list Primitive))
    (before after : list Primitive) (primitive : Primitive) :
  concat geometries = before ++ primitive :: after →
  let arrays := dae_arrays geometries in
  let offset := List.length (concat (vertex <$> before)) in
  (∀ k v, vertex primitive !! k = Some v →
          all_vertices arrays !! (offset + k)%nat = Some v) ∧
  (∀ f, f ∈ vertex_index primitive →
        adjusted offset f ∈ all_faces arrays) ∧
  List.length (all_vertices arrays)
  = List.length (concat (vertex <$> concat geometries)).
Proof.
  intros Hsplit. cbv zeta. unfold dae_arrays.
  rewrite dae_arrays_flat, Hsplit, fold_left_app. simpl.
  set (acc := fold_left add_primitive before (mkArrays [] [] 0)).
  destruct (add_primitives_grow before (mkArrays [] [] 0) eq_refl)
    as (Hoff & _ & _). fold acc in Hoff.
  assert (Hverts : all_vertices acc = concat (vertex <$> before))
    by (unfold acc; rewrite add_primitives_vertices; reflexivity).
  destruct (add_primitives_grow after (add_primitive acc primitive))
    as (_ & Hv & Hf).
  { simpl. rewrite length_app. lia. }
  cbv zeta in Hv, Hf. simpl in Hv, Hf.
  split; [ | split ].
  - intros k v Hk.
    assert (Hlt : (List.length (concat (vertex <$> before)) + k
                   < List.length (all_vertices acc ++ vertex primitive))%nat).
    { rewrite length_app, <- Hverts. apply lookup_lt_Some in Hk. lia. }
    rewrite <- (prefix_lookup_lt _ _ _ Hlt Hv).
    rewrite <- Hverts, lookup_app_r by lia.
    replace (List.length (all_vertices acc) + k
             - List.length (all_vertices acc))%nat with k by lia.
    exact Hk.
  - intros f Hin. destruct Hf as [more ->].
    rewrite !elem_of_app. left. right.
    rewrite Hoff, Hverts. apply list_elem_of_fmap. eauto.
  - rewrite add_primitives_vertices. simpl. rewrite Hverts.
    rewrite fmap_app, concat_app, fmap_cons. simpl.
    rewrite <- app_assoc. reflexivity.
Qed.

Lemma dae_arrays_keeps_primitive_witness :
  all_vertices
    (dae_arrays [[mkPrimitive [(0, 0, 0); (1, 0, 0); (0, 1, 0)] [(0, 1, 2)%nat]];
                 [mkPrimitive [(5, 5, 5); (6, 5, 5); (5, 6, 5)] [(0, 1, 2)%nat]]])
    !! (3 + 1)%nat = Some (6, 5, 5).
Proof.
  apply (proj1 (dae_arrays_keeps_primitive
                  [[mkPrimitive [(0, 0, 0); (1, 0, 0); (0, 1, 0)]
                      [(0, 1, 2)%nat]];
                   [mkPrimitive [(5, 5, 5); (6, 5, 5); (5, 6, 5)]
                      [(0, 1, 2)%nat]]]
                  [mkPrimitive [(0, 0, 0); (1, 0, 0); (0, 1, 0)]
                     [(0, 1, 2)%nat]]
                  []
                  (mkPrimitive [(5, 5, 5); (6, 5, 5); (5, 6, 5)]
                     [(0, 1, 2)%nat]) eq_refl) 1%nat (6, 5, 5)).
  reflexivity.
Defined.

Lemma adjusted_in_range (n offset : nat) (faces : list Face) :
  faces_in_range n faces →
  faces_in_range (offset + n) (adjusted offset <$> faces).
Proof.
  unfold faces_in_range. intros H. apply Forall_fmap.
  eapply Forall_impl; [ exact H | ].
  intros f (H1 & H2 & H3). unfold adjusted. simpl. lia.
Qed.

Lemma faces_in_range_mono (n n' : nat) (faces : list Face) :
  (n <= n')%nat → faces_in_range n faces → faces_in_range n' faces.
Proof.
  unfold faces_in_range. intros Hle H.
  eapply Forall_impl; [ exact H | ]. intros f (H1 & H2 & H3). lia.
Qed.

Lemma add_primitives_in_range (primitives : list Primitive) (acc : Arrays) :
  vertex_offset acc = List.length (all_vertices acc) →
  faces_in_range (List.length (all_vertices acc)) (all_faces acc) →
  Forall well_indexed primitives →
  let acc' := fold_left add_primitive primitives acc in
  faces_in_range (List.length (all_vertices acc')) (all_faces acc').
Proof.
  revert acc. induction primitives as [ | p ps IH];
    intros acc Hoff Hacc Hall; simpl; [ exact Hacc | ].
  inversion Hall as [ | ? ? Hp Hps]; subst.
  apply IH; [ simpl; rewrite length_app; lia | | exact Hps ].
  simpl. rewrite length_app. unfold faces_in_range. apply Forall_app. split.
  - eapply faces_in_range_mono; [ | exact Hacc ]. lia.
  - rewrite Hoff. apply adjusted_in_range. exact Hp.
Qed.

(** When every primitive indexes only its own vertices, every face of the
    merged arrays indexes a vertex of the merged vertex array. *)
Theorem dae_arrays_in_range (geometries : list (list Primitive)) :
  Forall (Forall well_indexed) geometries →
  faces_in_range (List.length (all_vertices (dae_arrays geometries)))
    (all_faces (dae_arrays geometries)).
Proof.
  intros Hall. unfold dae_arrays. rewrite dae_arrays_flat.
  apply add_primitives_in_range.
  - reflexivity.
  - constructor.
  - apply Forall_concat. exact Hall.
Qed.

Lemma dae_arrays_in_range_witness :
  faces_in_range 6
    (all_faces
       (dae_arrays
          [[mkPrimitive [(0, 0, 0); (1, 0, 0); (0, 1, 0)] [(0, 1, 2)%nat];
            mkPrimitive [(5, 5, 5); (6, 5, 5); (5, 6, 5)] [(0, 1, 2)%nat]]])).
Proof.
  apply (dae_arrays_in_range
           [[mkPrimitive [(0, 0, 0); (1, 0, 0); (0, 1, 0)] [(0, 1, 2)%nat];
             mkPrimitive [(5, 5, 5); (6, 5, 5); (5, 6, 5)] [(0, 1, 2)%nat]]]).
  repeat constructor.
Defined.

(** * The list of selected furniture *)

Lemma prefix_empty (s : string) : String.prefix "" s = true.
Proof. destruct s; reflexivity. Qed.

Lemma prefix_cons (a b : ascii) (s1 s2 : string) :
  String.prefix (String a s1) (String b s2)
  = if ascii_dec a b then String.prefix s1 s2 else false.
Proof. reflexivity. Qed.

Lemma split_head_entry (furniture_type suffix : string) :
  occurs " #" furniture_type = false →
  split_head " #" (furniture_type ++ " #" ++ suffix)%string = furniture_type.
Proof.
  induction furniture_type as [ | c t IH].
  - intros _.
    change (("" ++ " #" ++ suffix)%string)
      with (String " " (String "#" suffix)).
    cbn [split_head]. rewrite !prefix_cons, prefix_empty. reflexivity.
  - intros Hocc. cbn [occurs] in Hocc.
    apply orb_false_iff in Hocc as [Hp Ho].
    change ((String c t ++ " #" ++ suffix)%string)
      with (String c (t ++ " #" ++ suffix)%string).
    cbn [split_head].
    assert (Hpre : String.prefix " #" (String c (t ++ " #" ++ suffix)%string)
                   = false).
    { rewrite prefix_cons in Hp |- *.
      destruct (ascii_dec " " c); [ | reflexivity ].
      destruct t as [ | b t'].
      - change (("" ++ " #" ++ suffix)%string)
          with (String " " (String "#" suffix)).
        rewrite prefix_cons. reflexivity.
      - change ((String b t' ++ " #" ++ suffix)%string)
          with (String b (t' ++ " #" ++ suffix)%string).
        rewrite prefix_cons in Hp |- *.
        destruct (ascii_dec "#" b); [ | reflexivity ].
        rewrite prefix_empty in Hp. discriminate Hp. }
    rewrite Hpre, (IH Ho). reflexivity.
Qed.

Lemma decode_entries (furniture_type : string) (start n : nat) :
  occurs " #" furniture_type = false →
  split_head " #" <$> (entry furniture_type <$> seq start n)
  = replicate n furniture_type.
Proof.
  intros Hocc. revert start. induction n as [ | n IH]; intros start;
    [ reflexivity | ].
  simpl. rewrite IH. f_equal. unfold entry.
  apply split_head_entry. exact Hocc.
Qed.

(** Adding a furniture type with a quantity and reading the list back, as
    [generate_layout] does, gives the furniture selected before followed by
    that many copies of the type, provided the type does not contain the
    separator [" #"]; a quantity that is not positive adds nothing. *)
Theorem add_furniture_round_trip (furniture_type : string) (quantity : Z)
    (selected_furniture_list : list string) :
  occurs " #" furniture_type = false →
  selected_furniture_of
    (add_furniture_with_quantity (Some furniture_type) (Some quantity)
       selected_furniture_list).1
  = selected_furniture_of selected_furniture_list
    ++ replicate (Z.to_nat quantity) furniture_type.
Proof.
  intros Hocc. unfold selected_furniture_of, add_furniture_with_quantity.
  cbn [fst]. rewrite fmap_app, decode_entries by exact Hocc. reflexivity.
Qed.

Lemma add_furniture_round_trip_witness :
  selected_furniture_of
    (add_furniture_with_quantity (Some "TV Stand") (Some 2%Z) ["Bed #1"]).1
  = ["Bed"; "TV Stand"; "TV Stand"].
Proof.
  apply (add_furniture_round_trip "TV Stand" 2%Z ["Bed #1"]). reflexivity.
Defined.

(** * The room in the families preview *)

Lemma py_max_ge (a b : Q) : a <= py_max a b ∧ b <= py_max a b.
Proof.
  unfold py_max. destruct (ltb a b) eqn:E.
  - apply ltb_lt in E. split; lra.
  - apply ltb_ge in E. split; lra.
Qed.

(** Whenever the families preview draws the outline of the room, the
    outline lies strictly inside the axis limits of the preview. *)
Theorem preview_limits_contain_room
    (controller : Controller.room_dimensions) (xy : Q * Q)
    (room_length room_width : Q) (fill : bool) (color : string)
    (alpha : option Q) :
  room_outline controller
  = Some (Rectangle xy room_length room_width fill color alpha) →
  let '((x_min, x_max), (y_min, y_max)) := preview_limits controller in
  xy = (0, 0) ∧
  x_min < 0 ∧ room_length < x_max ∧ y_min < 0 ∧ room_width < y_max.
Proof.
  unfold room_outline, preview_limits.
  destruct (ltb 0 (Controller.length controller * METERS_TO_INCHES)) eqn:E1;
    [ | discriminate ].
  destruct (ltb 0 (Controller.width controller * METERS_TO_INCHES)) eqn:E2;
    [ | discriminate ].
  cbn [andb]. intros H. injection H as <- <- <- _ _ _.
  apply ltb_lt in E1, E2.
  destruct (py_max_ge (Controller.length controller * METERS_TO_INCHES)
              (Controller.width controller * METERS_TO_INCHES)) as [Hl Hw].
  split; [ reflexivity | ]. repeat split; lra.
Qed.

Lemma preview_limits_contain_room_witness :
  let '((x_min, x_max), (y_min, y_max)) :=
    preview_limits (Controller.mk 3 2 1) in
  x_min < 0 ∧ 3 * METERS_TO_INCHES < x_max.
Proof.
  pose proof (preview_limits_contain_room (Controller.mk 3 2 1) (0, 0)
                (3 * METERS_TO_INCHES) (2 * METERS_TO_INCHES) false "blue"
                None eq_refl) as H.
  destruct (preview_limits (Controller.mk 3 2 1)) as [[x_min x_max] [y_min y_max]].
  destruct H as (_ & H1 & H2 & _). split; assumption.
Defined.

(** * Sizes of the families *)

Lemma vertex_line_words (line : string) :
  String.prefix "v " line = true →
  ∃ words, str_split line = "v" :: words.
Proof.
  destruct line as [ | a [ | b tail]]; try discriminate.
  - rewrite prefix_cons. destruct (ascii_dec "v" a); discriminate.
  - rewrite !prefix_cons.
    destruct (ascii_dec "v" a) as [<- | ]; [ | discriminate ].
    destruct (ascii_dec " " b) as [<- | ]; [ | discriminate ].
    intros _. exists (split_words EmptyString tail). reflexivity.
Qed.

Lemma vertex_lines_scan (lines : list string) :
  if forallb (λ line, negb (String.prefix "v " line)) lines
  then Forall (λ line, String.prefix "v " line = false) lines
  else Exists (λ line, String.prefix "v " line = true) lines.
Proof.
  induction lines as [ | line rest IH]; [ constructor | ].
  cbn [forallb]. destruct (String.prefix "v " line) eqn:E; cbn [negb andb].
  - apply Exists_cons_hd. exact E.
  - destruct (forallb _ rest).
    + constructor; assumption.
    + apply Exists_cons_tl. exact IH.
Qed.

Section families.
Variable os_path_join : string → string → string.
Variable os_path_exists : string → bool.
Variable read_lines : string → option (list string).
Variable float : string → option pyfloat.
(** [float("v")] raises a [ValueError]. *)
Hypothesis float_v : float "v" = None.

Lemma vertex_line_fails (line : string) :
  String.prefix "v " line = true → vertex_xy float line = None.
Proof.
  intros Hpre. apply vertex_line_words in Hpre as [words Hwords].
  unfold vertex_xy. rewrite Hwords.
  destruct words as [ | w1 [ | w2 [ | w3 [ | w4 more]]]]; try reflexivity.
  rewrite float_v. reflexivity.
Qed.

Lemma scan_lines_outcome (lines : list string) (acc : Extremes) :
  scan_lines float lines acc
  = if forallb (λ line, negb (String.prefix "v " line)) lines
    then Some acc else None.
Proof.
  induction lines as [ | line rest IH]; [ reflexivity | ].
  cbn [scan_lines forallb].
  destruct (String.prefix "v " line) eqn:E; cbn [negb andb].
  - rewrite (vertex_line_fails line E). reflexivity.
  - exact IH.
Qed.

(** [get_family_dimensions] never measures a family.  Converting the words
    of a vertex line starts with the word [v], which is no number, so a
    file with a vertex line ends in the default of 20 by 20 inches, like a
    missing or unreadable file; a file without any vertex line gives minus
    infinity for both sizes. *)
Theorem get_family_dimensions_outcomes (families_folder family_name : string) :
  let obj_path := os_path_join families_folder family_name in
  let size :=
    get_family_dimensions os_path_join os_path_exists read_lines float
      families_folder family_name in
  (size = (neg_inf, neg_inf) ∧
   os_path_exists obj_path = true ∧
   ∃ lines,
     read_lines obj_path = Some lines ∧
     Forall (λ line, String.prefix "v " line = false) lines) ∨
  (size = (finite 20, finite 20) ∧
   (os_path_exists obj_path = false ∨
    read_lines obj_path = None ∨
    ∃ lines,
      read_lines obj_path = Some lines ∧
      Exists (λ line, String.prefix "v " line = true) lines)).
Proof.
  cbv zeta. unfold get_family_dimensions.
  destruct (os_path_exists (os_path_join families_folder family_name));
    cbn [negb]; [ | right; auto ].
  destruct (read_lines (os_path_join families_folder family_name))
    as [lines | ]; [ | right; auto ].
  rewrite scan_lines_outcome.
  destruct (forallb (λ line, negb (String.prefix "v " line)) lines) eqn:E.
  - left. split; [ reflexivity | ]. split; [ reflexivity | ].
    exists lines. split; [ reflexivity | ].
    pose proof (vertex_lines_scan lines) as H. rewrite E in H. exact H.
  - right. split; [ reflexivity | ]. right. right.
    exists lines. split; [ reflexivity | ].
    pose proof (vertex_lines_scan lines) as H. rewrite E in H. exact H.
Qed.
End families.

Lemma get_family_dimensions_outcomes_witness :
  get_family_dimensions (λ a b, (a ++ "/" ++ b)%string) (λ _, true)
    (λ _, Some ["# chair"; "v 0.0 0.0 0.0"; "v 1.0 2.0 0.5"])
    (λ s, if String.eqb s "v" then None else Some (finite 1))
    "families" "chair.obj"
  = (finite 20, finite 20).
Proof.
  destruct (get_family_dimensions_outcomes (λ a b, (a ++ "/" ++ b)%string)
              (λ _, true)
              (λ _, Some ["# chair"; "v 0.0 0.0 0.0"; "v 1.0 2.0 0.5"])
              (λ s, if String.eqb s "v" then None else Some (finite 1))
              eq_refl "families" "chair.obj")
    as [(_ & _ & lines & Hlines & Hall) | [Hsize _]]; [ | exact Hsize ].
  injection Hlines as <-.
  inversion Hall as [ | ? ? _ Hrest]; subst.
  inversion Hrest as [ | ? ? Hv _]; subst. discriminate Hv.
Defined.
